(** * chat_exporter/chat_exporter.py: the export entry points

    A shallow embedding of the module [chat_exporter.chat_exporter]: the
    wrapper coroutines [quick_export] (bound three times), [export],
    [raw_export], [quick_link] and [link].

    The coroutines are straight-line glue over two collaborators: the
    chat-platform SDK ([discord]) and the transcript builder ([Transcript]).
    They are embedded in a state-and-exception monad over a [World] that
    holds the Python channel objects (a store, because [channel.guild = guild]
    mutates the caller's object), the platform-side message history, the
    file system, and the log of every effect in program order.  An [await]
    is sequencing: the module runs single-flow. *)

From Stdlib Require Import ZArith Ascii String List Lia.
From stdpp Require Import gmap strings list.

Open Scope string_scope.
Open Scope Z_scope.
Open Scope list_scope.

(** ** Python exceptions *)

(** The exception classes the module can observe.  [OtherException] stands
    for any further subclass of [Exception] (an SDK error, say);
    [BaseOnly] for the classes that derive from [BaseException] but not
    from [Exception] ([KeyboardInterrupt], [SystemExit],
    [asyncio.CancelledError]). *)
Inductive exn : Type :=
| TypeError
| ValueError
| IndexError
| AttributeError
| NameError
| OtherException (cls : string)
| BaseOnly (cls : string).

(** [except Exception:] *)
Definition is_Exception (e : exn) : bool :=
  match e with
  | BaseOnly _ => false
  | _ => true
  end.

(** [except TypeError:] *)
Definition is_TypeError (e : exn) : bool :=
  match e with
  | TypeError => true
  | _ => false
  end.

Inductive res (A : Type) : Type :=
| Ret (a : A)
| Raise (e : exn).
Arguments Ret {A} a.
Arguments Raise {A} e.

(** ** Data model: the SDK objects the module touches *)

(** A reference to a Python channel object. *)
Definition loc := nat.

(** [discord.Guild]: its id and its channel cache.  The module never
    mutates a guild, so guilds are values.  [discord.Guild] defines neither
    [__bool__] nor [__len__]: every guild object is truthy. *)
Record Guild : Type := mkGuild {
  g_id : Z;
  g_channels : gmap Z loc
}.

(** [discord.Client]: the guild cache behind [get_guild]. *)
Record Client : Type := mkClient {
  c_guilds : gmap Z Guild
}.

(** [discord.TextChannel]: the attributes of the channel object. *)
Record Channel : Type := mkChannel {
  ch_id : Z;
  ch_name : string;
  ch_guild : option Guild
}.

(** [discord.Attachment].  The cleanup loop expects that inspecting a
    message's attachments can raise [TypeError]; a filename that is not a
    string ([None]) is such a case. *)
Record Attachment : Type := mkAttachment {
  a_filename : option string;
  a_url : string
}.

(** [discord.Message]: the id, the id of the channel it was posted in, the
    creation time, the attachments.  [m_attachments = None] is an attribute
    that is not iterable. *)
Record Message : Type := mkMessage {
  m_id : Z;
  m_channel : Z;
  m_created_at : Z;
  m_attachments : option (list Attachment)
}.

Inductive Colour : Type := blurple | red.

(** [discord.Embed(title=, description=, colour=)] *)
Record Embed : Type := mkEmbed {
  e_title : option string;
  e_description : option string;
  e_colour : Colour
}.

(** [discord.File(io.BytesIO(data), filename=)] *)
Record File : Type := mkFile {
  f_data : string;
  f_filename : string
}.

(** What [channel.send] returns: the message as it was posted. *)
Record Posted : Type := mkPosted {
  p_channel : Z;
  p_embed : option Embed;
  p_file : option File
}.

(** The handler classes the module imports. *)
Inductive AttachmentHandler : Type :=
| AttachmentToLocalFileHostHandler
| AttachmentToDiscordChannelHandler.

(** The keyword arguments of [Transcript(...)]. *)
Record TranscriptArgs : Type := mkTranscriptArgs {
  t_channel : option loc;
  t_limit : option Z;
  t_messages : option (list Message);
  t_pytz_timezone : string;
  t_military_time : option bool;
  t_fancy_times : option bool;
  t_before : option Z;
  t_after : option Z;
  t_support_dev : option bool;
  t_bot : option Client;
  t_attachment_handler : option AttachmentHandler
}.

(** The object [Transcript(...).export()] returns; [export]'s docstring
    gives [.html] as a string. *)
Record Transcript : Type := mkTranscript {
  html : string
}.

(** ** Effects *)

Inductive event : Type :=
| EvGetGuild (id : Z)
| EvGetChannel (g : Guild) (id : Z)
| EvTranscript (a : TranscriptArgs)
| EvTranscriptCls (channel : option loc) (limit : option Z) (tz : string)
| EvPrintExc (e : exn)
| EvPrint (s : string)
| EvSend (channel : Z) (embed : option Embed) (file : option File)
| EvHistory (channel : Z)
| EvDelete (m : Z)
| EvOpen (path : string)
| EvWrite (path : string) (data : string).

(** The file system: the regular files by path, and the directories, each
    written with its trailing slash, under which a file can be created.
    Paths are compared as they are spelled. *)
Record FileSystem : Type := mkFileSystem {
  fs_files : gmap string string;
  fs_dirs : gset string
}.

#[global] Instance fs_lookup : Lookup string string FileSystem :=
  fun path fs => fs_files fs !! path.

#[global] Instance fs_insert : Insert string string FileSystem :=
  fun path data fs =>
    mkFileSystem (<[path := data]> (fs_files fs)) (fs_dirs fs).

Record World : Type := mkWorld {
  w_chans : gmap loc Channel;
  w_history : gmap Z (list Message);
  w_fs : FileSystem;
  w_trace : list event
}.

Definition M (A : Type) : Type := World -> res A * World.

Definition ret {A} (a : A) : M A := fun w => (Ret a, w).

Definition raise {A} (e : exn) : M A := fun w => (Raise e, w).

Definition bind {A B} (m : M A) (k : A -> M B) : M B :=
  fun w =>
    match m w with
    | (Ret a, w') => k a w'
    | (Raise e, w') => (Raise e, w')
    end.

Declare Scope py_scope.
Delimit Scope py_scope with py.
Notation "x <- m ;; k" := (bind m (fun x => k))
  (at level 100, m at next level, right associativity) : py_scope.
Notation "m ;; k" := (bind m (fun _ => k))
  (at level 100, right associativity) : py_scope.
Open Scope py_scope.

Definition lift {A} (r : res A) : M A := fun w => (r, w).

(** [try: body  except <handles>: handler] *)
Definition try_except {A} (body : M A) (handles : exn -> bool)
    (handler : exn -> M A) : M A :=
  fun w =>
    match body w with
    | (Ret a, w') => (Ret a, w')
    | (Raise e, w') => if handles e then handler e w' else (Raise e, w')
    end.

Definition log (e : event) : M unit :=
  fun w => (Ret tt,
            mkWorld (w_chans w) (w_history w) (w_fs w) (w_trace w ++ [e])).

(** ** Python built-ins *)

(** The ASCII whitespace [int] skips around a literal: TAB..CR and the
    space. *)
Definition is_space (c : ascii) : bool :=
  let n := nat_of_ascii c in
  ((9 <=? n)%nat && (n <=? 13)%nat) || (n =? 32)%nat.

Definition digit_val (c : ascii) : option Z :=
  let n := nat_of_ascii c in
  if ((48 <=? n)%nat && (n <=? 57)%nat)%bool
  then Some (Z.of_nat (n - 48))
  else None.

Fixpoint lstrip (cs : list ascii) : list ascii :=
  match cs with
  | c :: cs' => if is_space c then lstrip cs' else cs
  | [] => []
  end.

Definition strip (cs : list ascii) : list ascii :=
  rev (lstrip (rev (lstrip cs))).

(** Digits with single underscores between them. *)
Fixpoint parse_digits (acc : Z) (after_digit : bool) (cs : list ascii)
    : option Z :=
  match cs with
  | [] => if after_digit then Some acc else None
  | c :: cs' =>
      match digit_val c with
      | Some d => parse_digits (10 * acc + d) true cs'
      | None =>
          if (Ascii.eqb c "_" && after_digit)%bool
          then parse_digits acc false cs'
          else None
      end
  end.

(** [sys.get_int_max_str_digits()], at its default. *)
Definition int_max_str_digits : nat := 4300.

Definition count_digits (cs : list ascii) : nat :=
  length (List.filter (fun c => match digit_val c with
                                | Some _ => true
                                | None => false
                                end) cs).

(** [int(s)] on ASCII strings: [int(None)] is a [TypeError]; a string that
    is no decimal literal, or one of more than 4300 digits, a [ValueError].
    Digits and whitespace outside ASCII, which [int] accepts as well, are
    not recognised. *)
Definition py_int (s : option string) : res Z :=
  match s with
  | None => Raise TypeError
  | Some s =>
      if (int_max_str_digits <? count_digits (list_ascii_of_string s))%nat
      then Raise ValueError
      else
      match strip (list_ascii_of_string s) with
      | c :: cs =>
          if Ascii.eqb c "-" then
            match parse_digits 0 false cs with
            | Some n => Ret (- n)
            | None => Raise ValueError
            end
          else if Ascii.eqb c "+" then
            match parse_digits 0 false cs with
            | Some n => Ret n
            | None => Raise ValueError
            end
          else
            match parse_digits 0 false (c :: cs) with
            | Some n => Ret n
            | None => Raise ValueError
            end
      | [] => Raise ValueError
      end
  end.

(** [needle in hay] on strings. *)
Fixpoint str_contains (needle hay : string) : bool :=
  String.prefix needle hay ||
  match hay with
  | EmptyString => false
  | String _ hay' => str_contains needle hay'
  end.

(** [needle in x]: a [TypeError] when [x] is [None]. *)
Definition py_in (needle : string) (x : option string) : res bool :=
  match x with
  | Some hay => Ret (str_contains needle hay)
  | None => Raise TypeError
  end.

(** [f"{x}"] for an optional string. *)
Definition py_format (x : option string) : string :=
  match x with
  | Some s => s
  | None => "None"
  end.

(** [not s] for a string. *)
Definition py_not (s : string) : bool := String.eqb s EmptyString.

Definition nl : string := String (ascii_of_nat 10) EmptyString.

(** ** The platform SDK

    The platform is the mocked client of the specification's contract
    checks: a call that reaches the platform succeeds.  What can fail is
    what Python itself decides (an attribute of [None], [int] of a bad
    string, an index into an empty list) and what the file system decides
    about a path. *)

(** An attribute access on [channel]: [AttributeError] on [None]. *)
Definition deref (channel : option loc) : M Channel :=
  fun w =>
    match channel with
    | Some l =>
        match w_chans w !! l with
        | Some ch => (Ret ch, w)
        | None => (Raise AttributeError, w)
        end
    | None => (Raise AttributeError, w)
    end.

(** [channel.guild = guild] *)
Definition set_guild (channel : option loc) (g : Guild) : M unit :=
  fun w =>
    match channel with
    | Some l =>
        match w_chans w !! l with
        | Some ch =>
            (Ret tt,
             mkWorld (<[l := mkChannel (ch_id ch) (ch_name ch) (Some g)]> (w_chans w))
                     (w_history w) (w_fs w) (w_trace w))
        | None => (Raise AttributeError, w)
        end
    | None => (Raise AttributeError, w)
    end.

(** [client.get_guild(int(guild))]: the attribute first, then the
    argument, then the call. *)
Definition get_guild (client : option Client) (guild : option string)
    : M (option Guild) :=
  match client with
  | None => raise AttributeError
  | Some c =>
      id <- lift (py_int guild) ;;
      log (EvGetGuild id) ;;
      ret (c_guilds c !! id)
  end.

(** [guild.get_channel(int(channel))] *)
Definition get_channel (guild : option Guild) (channel : option string)
    : M (option loc) :=
  match guild with
  | None => raise AttributeError
  | Some g =>
      id <- lift (py_int channel) ;;
      log (EvGetChannel g id) ;;
      ret (g_channels g !! id)
  end.

(** [await channel.send(embed=, file=)] *)
Definition send (channel : option loc) (embed : option Embed)
    (file : option File) : M Posted :=
  ch <- deref channel ;;
  log (EvSend (ch_id ch) embed file) ;;
  ret (mkPosted (ch_id ch) embed file).

(** [channel.history(limit=None)]: the messages of the channel as the
    platform holds them when the iteration starts. *)
Definition history (channel : option loc) : M (list Message) :=
  ch <- deref channel ;;
  log (EvHistory (ch_id ch)) ;;
  fun w => (Ret (default [] (w_history w !! ch_id ch)), w).

Definition remove_message (m : Message) (ms : list Message) : list Message :=
  filter (fun m' => m_id m' ≠ m_id m) ms.

(** [await m.delete()] *)
Definition delete (m : Message) : M unit :=
  log (EvDelete (m_id m)) ;;
  fun w =>
    (Ret tt,
     mkWorld (w_chans w)
             (alter (remove_message m) (m_channel m) (w_history w))
             (w_fs w) (w_trace w)).

(** [traceback.print_exc()] *)
Definition print_exc (e : exn) : M unit := log (EvPrintExc e).

(** [print(s)] *)
Definition print (s : string) : M unit := log (EvPrint s).

(** The directory part of a path, up to and including its last slash, and
    the name after it. *)
Fixpoint dirname (path : string) : string :=
  match path with
  | EmptyString => EmptyString
  | String c rest =>
      if str_contains "/" path then String c (dirname rest) else EmptyString
  end.

Fixpoint basename (path : string) : string :=
  match path with
  | EmptyString => EmptyString
  | String c rest => if str_contains "/" path then basename rest else path
  end.

Definition nul : string := String (ascii_of_nat 0) EmptyString.

(** The limits of the host ([/var/www/html] is a Linux path). *)
Definition NAME_MAX : nat := 255.
Definition PATH_MAX : nat := 4096.

(** What [open(path, "w")] raises, if anything: [ValueError] for an
    embedded null byte; [OSError] ([FileNotFoundError], [IsADirectoryError],
    or the plain [OSError] of a name too long) when the directory of the
    path does not exist, the path has no file name or names a directory, or
    the name or the path is too long. *)
Definition open_error (fs : FileSystem) (path : string) : option exn :=
  if str_contains nul path then Some ValueError
  else if ((String.length path <? PATH_MAX)%nat
           && (0 <? String.length (basename path))%nat
           && (String.length (basename path) <=? NAME_MAX)%nat
           && bool_decide (dirname path ∈ fs_dirs fs)
           && negb (bool_decide (path +:+ "/" ∈ fs_dirs fs)))%bool
       then None
       else Some (OtherException "OSError").

(** [with open(path, "w") as f: f.write(data)]: an [open] that fails raises
    before anything is touched; one that succeeds truncates. *)
Definition open_write (path data : string) : M unit :=
  fun w =>
    match open_error (w_fs w) path with
    | Some e => (Raise e, w)
    | None =>
        (log (EvOpen path) ;;
         (fun w => (Ret tt,
                    mkWorld (w_chans w) (w_history w)
                            (<[path := EmptyString]> (w_fs w)) (w_trace w))) ;;
         log (EvWrite path data) ;;
         fun w => (Ret tt,
                   mkWorld (w_chans w) (w_history w)
                           (<[path := data]> (w_fs w)) (w_trace w))) w
    end.

(** [message.attachments[0]] *)
Definition first_attachment (message : Message) : res Attachment :=
  match m_attachments message with
  | None => Raise TypeError
  | Some [] => Raise IndexError
  | Some (a :: _) => Ret a
  end.

Definition error_embed : Embed :=
  mkEmbed (Some "Transcript Generation Failed!")
          (Some "Whoops! We've stumbled in to an issue here.")
          red.

Definition screenshot_notice : string :=
  "Please send a screenshot of the above error to https://www.github.com/mahtoid/DiscordChatExporterPy".

Definition transcripts_dir : string := "/var/www/html/transcripts/".

(** ** The coroutines of the module *)

Section Exporter.

(** The transcript builder lives in [chat_exporter.construct.transcript];
    the module consumes it as an opaque call that returns or raises.
    [Transcript_export w a] is [await Transcript(...).export()] with the
    keyword arguments [a] in world [w]; [Transcript_export_cls w channel
    limit tz] is the class-level call
    [await Transcript.export(channel, limit, tz)] of line 181.  The
    builder reads the world and leaves it as it is. *)
Variable Transcript_export : World -> TranscriptArgs -> res Transcript.
Variable Transcript_export_cls :
  World -> option loc -> option Z -> string -> res Transcript.

Definition build (a : TranscriptArgs) : M Transcript :=
  fun w => bind (log (EvTranscript a)) (fun _ => lift (Transcript_export w a)) w.

Definition build_cls (channel : option loc) (limit : option Z) (tz : string)
    : M Transcript :=
  fun w =>
    bind (log (EvTranscriptCls channel limit tz))
         (fun _ => lift (Transcript_export_cls w channel limit tz)) w.

(** [if guild: channel.guild = guild] *)
Definition assign_guild (channel : option loc) (guild : option Guild)
    : M unit :=
  match guild with
  | Some g => set_guild channel g
  | None => ret tt
  end.

(** Lines 11-53: the first binding of [quick_export], which posts the
    transcript back to the channel. *)
Definition quick_export_l11 (channel : option loc) (guild : option Guild)
    (bot : option Client) : M (option Posted) :=
  assign_guild channel guild ;;
  t <- build (mkTranscriptArgs channel None None "UTC" (Some true)
                (Some true) None None (Some true) bot None) ;;
  let transcript := html t in
  if py_not transcript then ret None
  else
    ch <- deref channel ;;
    let transcript_embed :=
      mkEmbed None
        (Some ("**Transcript Name:** transcript-" +:+ ch_name ch +:+ nl +:+ nl))
        blurple in
    ch' <- deref channel ;;
    let transcript_file :=
      mkFile transcript ("transcript-" +:+ ch_name ch' +:+ ".html") in
    p <- send channel (Some transcript_embed) (Some transcript_file) ;;
    ret (Some p).

(** Lines 56-101. *)
Definition export (channel : option loc) (limit : option Z)
    (tz_info : string) (guild : option Guild) (bot : option Client)
    (military_time fancy_times : option bool) (before after : option Z)
    (support_dev : option bool)
    (attachment_handler : option AttachmentHandler) : M string :=
  assign_guild channel guild ;;
  t <- build (mkTranscriptArgs channel limit None tz_info military_time
                fancy_times before after support_dev bot
                attachment_handler) ;;
  ret (html t).

(** Lines 104-145. *)
Definition raw_export (channel : option loc) (messages : list Message)
    (tz_info : string) (guild : option Guild) (bot : option Client)
    (military_time fancy_times support_dev : option bool)
    (attachment_handler : option AttachmentHandler) : M string :=
  assign_guild channel guild ;;
  t <- build (mkTranscriptArgs channel None (Some messages) tz_info
                military_time fancy_times None None support_dev bot
                attachment_handler) ;;
  ret (html t).

(** Lines 148-167. *)
Definition quick_link (channel : option loc) (message : Message)
    : M Posted :=
  a <- lift (first_attachment message) ;;
  let embed :=
    mkEmbed (Some "Transcript Link")
      (Some ("[Click here to view the transcript](https://mahto.id/chat-exporter?url="
             +:+ a_url a +:+ ")"))
      blurple in
  send channel (Some embed) None.

(** The handler of lines 182-191 and 217-226; [None] is its bare
    [return]. *)
Definition report_failure {A} (channel : option loc) (e : exn)
    : M (option A) :=
  print_exc e ;;
  send channel (Some error_embed) None ;;
  print screenshot_notice ;;
  ret None.

(** The inner [for f in m.attachments:] of the cleanup pass. *)
Fixpoint inspect_attachments (channel : option loc) (m : Message)
    (fs : list Attachment) : M unit :=
  match fs with
  | [] => ret tt
  | f :: fs' =>
      ch <- deref channel ;;
      hit <- lift (py_in ("transcript-" +:+ ch_name ch +:+ ".html")
                         (a_filename f)) ;;
      (if hit : bool then delete m else ret tt) ;;
      inspect_attachments channel m fs'
  end.

(** The body of the [try]: iterating [m.attachments] is a [TypeError]
    when the attribute is not iterable. *)
Definition inspect_body (channel : option loc) (m : Message) : M unit :=
  match m_attachments m with
  | Some fs => inspect_attachments channel m fs
  | None => raise TypeError
  end.

(** One round of the [async for]: the [try] around the inner loop, with
    [except TypeError: continue]. *)
Definition inspect_message (channel : option loc) (m : Message) : M unit :=
  try_except (inspect_body channel m) is_TypeError (fun _ => ret tt).

Fixpoint cleanup_loop (channel : option loc) (ms : list Message) : M unit :=
  match ms with
  | [] => ret tt
  | m :: ms' => inspect_message channel m ;; cleanup_loop channel ms'
  end.

(** Lines 193-199 and 228-234. *)
Definition cleanup (channel : option loc) : M unit :=
  ms <- history channel ;;
  cleanup_loop channel ms.

(** Lines 201-203 and 236-238. *)
Definition write_ticket (channel : option loc) (ticket_id : option string)
    (data : string) : M unit :=
  ch <- deref channel ;;
  let ticket_name :=
    "transcript-" +:+ ch_name ch +:+ "---" +:+ py_format ticket_id
    +:+ "---.html" in
  open_write (transcripts_dir +:+ ticket_name) data.

(** Lines 170-203: the second binding of [quick_export]. *)
Definition quick_export_l170 (channel : string)
    (guild ticket_id : option string) (client : option Client) : M unit :=
  guild <- get_guild client guild ;;
  channel <- get_channel guild (Some channel) ;;
  r <- try_except
         (t <- build_cls channel None "Europe/London" ;; ret (Some t))
         is_Exception
         (report_failure channel) ;;
  match r with
  | None => ret tt
  | Some transcript =>
      cleanup channel ;;
      write_ticket channel ticket_id (html transcript)
  end.

(** Lines 205-238: the third binding of [quick_export], which writes the
    string [export] returns to disk. *)
Definition quick_export_l205 (channel : string)
    (guild ticket_id : option string) (client : option Client) : M unit :=
  guild <- get_guild client guild ;;
  channel <- get_channel guild (Some channel) ;;
  r <- try_except
         (t <- export channel (Some 10000) "UTC" guild None (Some true)
                 (Some true) None None (Some true) None ;;
          ret (Some t))
         is_Exception
         (report_failure channel) ;;
  match r with
  | None => ret tt
  | Some transcript =>
      cleanup channel ;;
      write_ticket channel ticket_id transcript
  end.

(** Lines 240-249. *)
Definition link (message : Message) : M string :=
  a <- lift (first_attachment message) ;;
  ret ("https://mahto.id/chat-exporter?url=" +:+ a_url a).

End Exporter.

(** ** The module namespace

    Executing the module runs its [async def] statements top to bottom; each
    one binds its name in the module globals, replacing an earlier binding
    of the same name. *)

(** The function objects, by the line of their [async def]. *)
Inductive def_id : Type :=
| L11_quick_export
| L56_export
| L104_raw_export
| L148_quick_link
| L170_quick_export
| L205_quick_export
| L240_link.

Definition module_body : list (string * def_id) :=
  [ ("quick_export", L11_quick_export);
    ("export", L56_export);
    ("raw_export", L104_raw_export);
    ("quick_link", L148_quick_link);
    ("quick_export", L170_quick_export);
    ("quick_export", L205_quick_export);
    ("link", L240_link) ].

Definition exec_def (globals : gmap string def_id) (d : string * def_id)
    : gmap string def_id :=
  <[d.1 := d.2]> globals.

Definition module_globals : gmap string def_id :=
  foldl exec_def ∅ module_body.

(** The two keyword signatures [quick_export] is written for:
    [(channel=, guild=, bot=)] with SDK objects, and
    [(channel=, guild=, ticket_id=, client=)] with identifier strings. *)
Inductive kwargs : Type :=
| KwPost (channel : option loc) (guild : option Guild) (bot : option Client)
| KwDisk (channel : string) (guild ticket_id : option string)
         (client : option Client).

Inductive retval : Type :=
| RNone
| RPosted (p : Posted)
| RStr (s : string).

Section Calls.

Variable Transcript_export : World -> TranscriptArgs -> res Transcript.
Variable Transcript_export_cls :
  World -> option loc -> option Z -> string -> res Transcript.

(** Calling a function object with keyword arguments; a keyword the
    function does not declare, or a required one left out, is a
    [TypeError]. *)
Definition apply_def (d : def_id) (kw : kwargs) : M retval :=
  match d, kw with
  | L11_quick_export, KwPost channel guild bot =>
      r <- quick_export_l11 Transcript_export channel guild bot ;;
      ret (match r with Some p => RPosted p | None => RNone end)
  | L56_export, KwPost channel guild bot =>
      s <- export Transcript_export channel None "UTC" guild bot
             (Some true) (Some true) None None (Some true) None ;;
      ret (RStr s)
  | L170_quick_export, KwDisk channel guild ticket_id client =>
      quick_export_l170 Transcript_export_cls channel guild ticket_id client ;;
      ret RNone
  | L205_quick_export, KwDisk channel guild ticket_id client =>
      quick_export_l205 Transcript_export channel guild ticket_id client ;;
      ret RNone
  | _, _ => raise TypeError
  end.

(** A call through a name of the module. *)
Definition call (name : string) (kw : kwargs) : M retval :=
  match module_globals !! name with
  | Some d => apply_def d kw
  | None => raise AttributeError
  end.

End Calls.

(** ** The transcript builder, from the specification *)

(** A message lies in the window when it was created after [after] and
    before [before]; a bound that is [None] does not restrict. *)
Definition in_window (before after : option Z) (m : Message) : bool :=
  match before with Some b => m_created_at m <? b | None => true end &&
  match after with Some a => a <? m_created_at m | None => true end.

Definition take_limit {A} (limit : option Z) (l : list A) : list A :=
  match limit with
  | Some n => take (Z.to_nat n) l
  | None => l
  end.

(** Modelled from the spec: the transcript builder [Transcript(...).export()]
    of [chat_exporter.construct.transcript], which is not part of the
    source.  It takes the messages it was given, or else the history of the
    channel up to [limit], keeps those in the before/after window, and
    renders them to HTML; a window that matches no message yields the empty
    transcript.  The rendering is the parameter [render]. *)
Definition spec_Transcript_export (render : list Message -> string)
    (w : World) (a : TranscriptArgs) : res Transcript :=
  match t_channel a with
  | None => Raise AttributeError
  | Some l =>
      match w_chans w !! l with
      | None => Raise AttributeError
      | Some ch =>
          let fetched :=
            match t_messages a with
            | Some ms => ms
            | None => take_limit (t_limit a)
                        (default [] (w_history w !! ch_id ch))
            end in
          match filter (fun m => in_window (t_before a) (t_after a) m = true)
                       fetched with
          | [] => Ret (mkTranscript EmptyString)
          | m :: ms => Ret (mkTranscript (render (m :: ms)))
          end
      end
  end.

(** ** Sample data: a guild with one channel, [support] *)

Definition support_channel : Channel := mkChannel 222 "support" None.

Definition home_guild : Guild := mkGuild 111 {[ 222 := 1%nat ]}.

Definition bot_client : Client := mkClient {[ 111 := home_guild ]}.

Definition old_transcript : Message :=
  mkMessage 501 222 10
    (Some [mkAttachment (Some "transcript-support.html")
                        "https://cdn.example.com/a.html"]).

Definition photo : Message :=
  mkMessage 502 222 20
    (Some [mkAttachment (Some "cat.png") "https://cdn.example.com/cat.png"]).

Definition no_attachments : Message := mkMessage 503 222 30 (Some []).

(** A nameless attachment in front of an old transcript. *)
Definition nameless_then_transcript : Message :=
  mkMessage 504 222 40
    (Some [mkAttachment None "https://cdn.example.com/x";
           mkAttachment (Some "transcript-support.html")
                        "https://cdn.example.com/b.html"]).

(** An old transcript in front of a nameless attachment. *)
Definition transcript_then_nameless : Message :=
  mkMessage 505 222 50
    (Some [mkAttachment (Some "transcript-support.html")
                        "https://cdn.example.com/c.html";
           mkAttachment None "https://cdn.example.com/y"]).

(** The web root with its transcripts directory and no file in it. *)
Definition web_root : FileSystem :=
  mkFileSystem ∅ {[ "/var/www/html/transcripts/" ]}.

Definition world0 : World :=
  mkWorld {[ 1%nat := support_channel ]}
          {[ 222 := [photo; old_transcript] ]}
          web_root [].

(** The channel with nothing in it. *)
Definition empty_world : World :=
  mkWorld {[ 1%nat := support_channel ]} {[ 222 := [] ]} web_root [].

Definition builder_returns (page : string)
    : World -> TranscriptArgs -> res Transcript :=
  fun _ _ => Ret (mkTranscript page).

Definition builder_raises (e : exn)
    : World -> TranscriptArgs -> res Transcript :=
  fun _ _ => Raise e.

Definition render_count (ms : list Message) : string :=
  "<html>" +:+ String (ascii_of_nat (48 + length ms)) EmptyString +:+ "</html>".

(** ** Vocabulary of the statements *)

(** [open(path, "w")] succeeds in this world. *)
Definition can_open (w : World) (path : string) : Prop :=
  open_error (w_fs w) path = None.

(** The events a run added to the log. *)
Definition new_events (w w' : World) : list event :=
  drop (length (w_trace w)) (w_trace w').

Definition is_send (e : event) : bool :=
  match e with EvSend _ _ _ => true | _ => false end.

Definition is_file_event (e : event) : bool :=
  match e with EvOpen _ | EvWrite _ _ => true | _ => false end.

Definition is_delete (e : event) : bool :=
  match e with EvDelete _ => true | _ => false end.

Definition is_lookup (e : event) : bool :=
  match e with EvGetGuild _ | EvGetChannel _ _ => true | _ => false end.

(** Output on the console: the traceback and [print]. *)
Definition is_diagnostic (e : event) : bool :=
  match e with EvPrintExc _ | EvPrint _ => true | _ => false end.

(** [f"transcript-{channel.name}.html"] *)
Definition transcript_filename (name : string) : string :=
  "transcript-" +:+ name +:+ ".html".

(** The path of lines 201-202 and 236-237. *)
Definition ticket_path (name : string) (ticket_id : option string) : string :=
  transcripts_dir +:+ "transcript-" +:+ name +:+ "---"
  +:+ py_format ticket_id +:+ "---.html".

(** The attachment's filename is a string that contains [needle]. *)
Definition matches (needle : string) (f : Attachment) : bool :=
  match a_filename f with
  | Some s => str_contains needle s
  | None => false
  end.

(** Some attachment of the message matches. *)
Definition has_match (needle : string) (m : Message) : Prop :=
  ∃ fs f, m_attachments m = Some fs ∧ f ∈ fs ∧ matches needle f = true.

(** Some attachment of the message matches, and every attachment in front
    of it has a string for a filename. *)
Definition reaches_match (needle : string) (m : Message) : Prop :=
  ∃ (pre : list Attachment) f post,
    m_attachments m = Some (pre ++ f :: post)%list ∧
    Forall (fun f' => is_Some (a_filename f')) pre ∧
    matches needle f = true.

(** The number of matching attachments in front of the first attachment
    whose filename is not a string. *)
Fixpoint deletes (needle : string) (fs : list Attachment) : nat :=
  match fs with
  | [] => 0
  | f :: fs' =>
      match a_filename f with
      | Some s => (if str_contains needle s then 1 else 0) + deletes needle fs'
      | None => 0
      end
  end.

Definition round_deletes (needle : string) (m : Message) : nat :=
  match m_attachments m with
  | Some fs => deletes needle fs
  | None => 0
  end.

(** Some attachment has a filename that is not a string. *)
Definition nameless (fs : list Attachment) : bool :=
  existsb (fun f => match a_filename f with None => true | Some _ => false end) fs.

(** The world after [n] calls of [m.delete()]. *)
Fixpoint delete_n (n : nat) (m : Message) (w : World) : World :=
  match n with
  | O => w
  | S n' => delete_n n' m (delete m w).2
  end.

(** The world after a cleanup pass over [ms], round by round. *)
Definition after_rounds (needle : string) (ms : list Message) (w : World)
    : World :=
  foldl (fun w m => delete_n (round_deletes needle m) m w) w ms.

(** The lookups of lines 176-177 and 211-212 succeed: both identifiers are
    integers, the client knows the guild, the guild knows the channel, and
    the channel is an object of the store. *)
Definition resolves (client : Client) (guild : option string)
    (channel : string) (w : World) (gid cid : Z) (g : Guild) (l : loc)
    (ch : Channel) : Prop :=
  py_int guild = Ret gid ∧ c_guilds client !! gid = Some g ∧
  py_int (Some channel) = Ret cid ∧ g_channels g !! cid = Some l ∧
  w_chans w !! l = Some ch.

(** The channel object after [channel.guild = g]. *)
Definition with_guild (ch : Channel) (g : Guild) : Channel :=
  mkChannel (ch_id ch) (ch_name ch) (Some g).

(** The keyword arguments line 216 hands to the builder through [export]. *)
Definition l205_args (l : loc) : TranscriptArgs :=
  mkTranscriptArgs (Some l) (Some 10000) None "UTC" (Some true) (Some true)
                   None None (Some true) None None.

(** The world in which line 216 reaches the builder: both lookups are
    logged and the channel object carries the guild. *)
Definition at_builder (w : World) (gid cid : Z) (g : Guild) (l : loc)
    (ch : Channel) : World :=
  mkWorld (<[l := with_guild ch g]> (w_chans w)) (w_history w) (w_fs w)
          (w_trace w ++ [EvGetGuild gid; EvGetChannel g cid]).

(** A delete of the message was issued between [w] and [w']. *)
Definition deleted_by (w w' : World) (m : Message) : Prop :=
  EvDelete (m_id m) ∈ new_events w w'.

(** The messages of the channel as the platform holds them. *)
Definition history_of (w : World) (ch : Channel) : list Message :=
  default [] (w_history w !! ch_id ch).

(** Every attachment has a string for a filename. *)
Definition string_named (m : Message) : Prop :=
  ∃ fs, m_attachments m = Some fs ∧
        Forall (fun f => is_Some (a_filename f)) fs.

(** The world once [channel.history] was called. *)
Definition at_history (w : World) (ch : Channel) : World :=
  mkWorld (w_chans w) (w_history w) (w_fs w)
          (w_trace w ++ [EvHistory (ch_id ch)]).

Definition shadowed_world : World :=
  mkWorld {[ 1%nat := support_channel ]}
          {[ 222 := [nameless_then_transcript; photo] ]}
          web_root [].

Definition trailing_world : World :=
  mkWorld {[ 1%nat := support_channel ]}
          {[ 222 := [transcript_then_nameless; photo] ]}
          web_root [].

(** Whatever the outcome, the computation only adds events that satisfy
    [P] to the log. *)
Definition emits {A} (P : event → Prop) (m : M A) : Prop :=
  ∀ w, ∃ evs, w_trace (m w).2 = w_trace w ++ evs ∧ Forall P evs.

Definition no_lookup (e : event) : Prop := is_lookup e = false.

(** ** Vocabulary of the further properties *)

(** The keyword arguments line 29 hands to the builder. *)
Definition l11_args (channel : option loc) (bot : option Client)
    : TranscriptArgs :=
  mkTranscriptArgs channel None None "UTC" (Some true) (Some true) None None
                   (Some true) bot None.

(** The embed of lines 47-50 and the file of line 52. *)
Definition transcript_embed (name : string) : Embed :=
  mkEmbed None
    (Some ("**Transcript Name:** transcript-" +:+ name +:+ nl +:+ nl))
    blurple.

Definition transcript_file (name data : string) : File :=
  mkFile data ("transcript-" +:+ name +:+ ".html").

(** The embed of lines 159-165 around a link. *)
Definition link_embed (url : string) : Embed :=
  mkEmbed (Some "Transcript Link")
    (Some ("[Click here to view the transcript](" +:+ url +:+ ")"))
    blurple.

(** The world with further events at the end of the log. *)
Definition logged (w : World) (evs : list event) : World :=
  mkWorld (w_chans w) (w_history w) (w_fs w) (w_trace w ++ evs).

(** Every message the platform lists for the channel was posted in it. *)
Definition own_history (w : World) (ch : Channel) : Prop :=
  ∀ m, m ∈ history_of w ch → m_channel m = ch_id ch.

(** The delete calls of a whole pass. *)
Definition pass_deletes (needle : string) (ms : list Message) : list event :=
  flat_map (fun m => repeat (EvDelete (m_id m)) (round_deletes needle m)) ms.

(** Two old transcripts attached to one message. *)
Definition double_transcript : Message :=
  mkMessage 506 222 60
    (Some [mkAttachment (Some "transcript-support.html")
                        "https://cdn.example.com/d.html";
           mkAttachment (Some "old-transcript-support.html")
                        "https://cdn.example.com/e.html"]).

Definition builder_cls_returns (page : string)
    : World → option loc → option Z → string → res Transcript :=
  fun _ _ _ _ => Ret (mkTranscript page).

(** A second channel object for the same guild, whose name extends the
    first one's. *)
Definition support_sub_channel : Channel := mkChannel 223 "support---eu" None.

Definition two_channel_world : World :=
  mkWorld {[ 1%nat := support_channel; 2%nat := support_sub_channel ]}
          {[ 222 := [photo]; 223 := [] ]}
          web_root [].

(** ** The embedding on sample inputs *)

Example py_int_snowflake : py_int (Some "111") = Ret 111.
Proof. reflexivity. Qed.

Example py_int_literals :
  py_int (Some " +1_000 ") = Ret 1000 ∧ py_int (Some "-007") = Ret (-7) ∧
  py_int (Some "1__0") = Raise ValueError ∧
  py_int (Some "12a") = Raise ValueError ∧
  py_int (Some EmptyString) = Raise ValueError ∧
  py_int None = Raise TypeError.
Proof. repeat split; reflexivity. Qed.

Example str_contains_samples :
  str_contains "transcript-support.html" "old-transcript-support.html.bak" = true ∧
  str_contains "transcript-support.html" "transcript-support.htm" = false ∧
  str_contains EmptyString EmptyString = true.
Proof. repeat split; reflexivity. Qed.

(** A successful export to disk: the old transcript goes, the photo stays,
    the ticket file is written. *)
Example quick_export_l205_sample :
  let run := quick_export_l205 (builder_returns "<html/>") "222" (Some "111")
                               (Some "42") (Some bot_client) world0 in
  run.1 = Ret tt ∧
  w_trace run.2 =
    [EvGetGuild 111; EvGetChannel home_guild 222;
     EvTranscript (l205_args 1%nat); EvHistory 222; EvDelete 501;
     EvOpen "/var/www/html/transcripts/transcript-support---42---.html";
     EvWrite "/var/www/html/transcripts/transcript-support---42---.html"
             "<html/>"] ∧
  w_history run.2 !! 222 = Some [photo].
Proof. repeat split; vm_compute; reflexivity. Qed.

(** The posting export on the same channel. *)
Example quick_export_l11_sample :
  (quick_export_l11 (builder_returns "<html/>") (Some 1%nat) None None
                    world0).1 =
  Ret (Some (mkPosted 222
               (Some (mkEmbed None
                        (Some ("**Transcript Name:** transcript-support"
                               +:+ nl +:+ nl))
                        blurple))
               (Some (mkFile "<html/>" "transcript-support.html")))).
Proof. vm_compute. reflexivity. Qed.

(** A channel the guild does not know: [export] fails on [None], the
    handler catches it, and its own [send] on [None] leaves the function. *)
Example quick_export_l205_unknown_channel :
  let run := quick_export_l205 (builder_returns "<html/>") "999" (Some "111")
                               (Some "42") (Some bot_client) world0 in
  run.1 = Raise AttributeError ∧
  w_trace run.2 =
    [EvGetGuild 111; EvGetChannel home_guild 999; EvPrintExc AttributeError].
Proof. repeat split; vm_compute; reflexivity. Qed.

(** ** Running the primitives *)

Lemma new_events_app (w w' : World) (evs : list event) :
  w_trace w' = w_trace w ++ evs → new_events w w' = evs.
Proof.
  intros H. unfold new_events. rewrite H. apply drop_app_length.
Qed.

Lemma delete_n_chans n m w : w_chans (delete_n n m w) = w_chans w.
Proof. revert w. induction n as [|n IH]; intros w; [done|]. simpl. by rewrite IH. Qed.

Lemma delete_n_fs n m w : w_fs (delete_n n m w) = w_fs w.
Proof. revert w. induction n as [|n IH]; intros w; [done|]. simpl. by rewrite IH. Qed.

Lemma delete_n_trace n m w :
  w_trace (delete_n n m w) = w_trace w ++ repeat (EvDelete (m_id m)) n.
Proof.
  revert w. induction n as [|n IH]; intros w; simpl.
  - by rewrite app_nil_r.
  - rewrite IH. simpl. by rewrite <- app_assoc.
Qed.

Lemma after_rounds_chans needle ms w :
  w_chans (after_rounds needle ms w) = w_chans w.
Proof.
  unfold after_rounds. revert w.
  induction ms as [|m ms IH]; intros w; simpl; [done|].
  rewrite IH. apply delete_n_chans.
Qed.

Lemma after_rounds_fs needle ms w :
  w_fs (after_rounds needle ms w) = w_fs w.
Proof.
  unfold after_rounds. revert w.
  induction ms as [|m ms IH]; intros w; simpl; [done|].
  rewrite IH. apply delete_n_fs.
Qed.

Lemma after_rounds_trace needle ms w :
  w_trace (after_rounds needle ms w) =
  w_trace w ++
  flat_map (fun m => repeat (EvDelete (m_id m)) (round_deletes needle m)) ms.
Proof.
  unfold after_rounds. revert w.
  induction ms as [|m ms IH]; intros w; simpl.
  - by rewrite app_nil_r.
  - rewrite IH, delete_n_trace. by rewrite <- app_assoc.
Qed.

(** The inner loop deletes once per match until a filename raises. *)
Lemma inspect_attachments_run fs l ch m w :
  w_chans w !! l = Some ch →
  inspect_attachments (Some l) m fs w =
  ((if nameless fs then Raise TypeError else Ret tt),
   delete_n (deletes (transcript_filename (ch_name ch)) fs) m w).
Proof.
  revert w. induction fs as [|f fs IH]; intros w Hl; [done|].
  simpl. unfold bind at 1. unfold deref. rewrite Hl.
  unfold bind at 1. unfold lift, py_in.
  destruct (a_filename f) as [s|]; [|done].
  fold (transcript_filename (ch_name ch)).
  unfold bind at 1.
  destruct (str_contains (transcript_filename (ch_name ch)) s); simpl.
  - rewrite IH by done. done.
  - rewrite IH by done. done.
Qed.

(** One round swallows the [TypeError] and keeps what was deleted. *)
Lemma inspect_message_run l ch m w :
  w_chans w !! l = Some ch →
  inspect_message (Some l) m w =
  (Ret tt, delete_n (round_deletes (transcript_filename (ch_name ch)) m) m w).
Proof.
  intros Hl. unfold inspect_message, inspect_body, try_except, round_deletes.
  destruct (m_attachments m) as [fs|]; [|done].
  rewrite (inspect_attachments_run fs l ch m w Hl).
  by destruct (nameless fs).
Qed.

Lemma cleanup_loop_run ms l ch w :
  w_chans w !! l = Some ch →
  cleanup_loop (Some l) ms w =
  (Ret tt, after_rounds (transcript_filename (ch_name ch)) ms w).
Proof.
  revert w. induction ms as [|m ms IH]; intros w Hl; [done|].
  simpl. unfold bind. rewrite (inspect_message_run l ch m w Hl).
  apply IH. by rewrite delete_n_chans.
Qed.

Lemma cleanup_run l ch w :
  w_chans w !! l = Some ch →
  cleanup (Some l) w =
  (Ret tt,
   after_rounds (transcript_filename (ch_name ch)) (history_of w ch)
                (at_history w ch)).
Proof.
  intros Hl. unfold cleanup, history, bind, deref. rewrite Hl. simpl.
  by rewrite (cleanup_loop_run _ l ch).
Qed.

(** ** Which messages a round deletes *)

Lemma deletes_pos needle fs :
  (0 < deletes needle fs)%nat ↔
  ∃ pre f post, fs = pre ++ f :: post ∧
                Forall (fun f' => is_Some (a_filename f')) pre ∧
                matches needle f = true.
Proof.
  induction fs as [|f fs IH]; simpl.
  - split; [lia|]. intros (pre & f & post & Heq & _). by destruct pre.
  - split.
    + intros Hpos. destruct (a_filename f) as [s|] eqn:Hf; [|lia].
      destruct (str_contains needle s) eqn:Hs.
      * exists [], f, fs. split_and!; [done|constructor|].
        unfold matches. by rewrite Hf.
      * apply IH in Hpos as (pre & f' & post & -> & Hpre & Hm).
        exists (f :: pre), f', post. split_and!; [done| |done].
        constructor; [by rewrite Hf|done].
    + intros (pre & f' & post & Heq & Hpre & Hm).
      destruct pre as [|p pre]; simpl in Heq; injection Heq as -> ->.
      * unfold matches in Hm. destruct (a_filename f') as [s|]; [|done].
        rewrite Hm. lia.
      * apply Forall_cons in Hpre as [[s Hs] Hpre]. rewrite Hs.
        assert (0 < deletes needle (pre ++ f' :: post))%nat; [|lia].
        apply IH. by exists pre, f', post.
Qed.

Lemma round_deletes_pos needle m :
  (0 < round_deletes needle m)%nat ↔ reaches_match needle m.
Proof.
  unfold round_deletes, reaches_match.
  destruct (m_attachments m) as [fs|].
  - rewrite deletes_pos. split.
    + intros (pre & f & post & -> & ? & ?). by exists pre, f, post.
    + intros (pre & f & post & [= ->] & ? & ?). by exists pre, f, post.
  - split; [lia|]. by intros (? & ? & ? & ? & _).
Qed.

Lemma reaches_match_has_match needle m :
  reaches_match needle m → has_match needle m.
Proof.
  intros (pre & f & post & Hm & _ & Hf). exists (pre ++ f :: post), f.
  split_and!; [done| |done]. apply elem_of_app. right. apply elem_of_cons. by left.
Qed.

Lemma has_match_reaches_match needle m :
  string_named m → has_match needle m → reaches_match needle m.
Proof.
  intros (fs & Hfs & Hall) (fs' & f & Hfs' & Hin & Hf).
  rewrite Hfs in Hfs'. injection Hfs' as <-.
  apply list_elem_of_split in Hin as (pre & post & ->).
  exists pre, f, post. split_and!; [done| |done].
  by apply Forall_app in Hall as [? _].
Qed.

Lemma delete_issued needle ms i :
  EvDelete i ∈
    flat_map (fun m => repeat (EvDelete (m_id m)) (round_deletes needle m)) ms ↔
  ∃ m, m ∈ ms ∧ m_id m = i ∧ (0 < round_deletes needle m)%nat.
Proof.
  rewrite list_elem_of_In, in_flat_map. split.
  - intros (m & Hm & Hin). exists m. rewrite list_elem_of_In. split; [done|].
    pose proof (repeat_spec _ _ _ Hin) as [= ->]. split; [done|].
    destruct (round_deletes needle m); [done|lia].
  - intros (m & Hm & <- & Hpos). exists m. rewrite <- list_elem_of_In.
    split; [done|]. destruct (round_deletes needle m); [lia|]. by left.
Qed.

Lemma unique_id (ms : list Message) m m' :
  NoDup (m_id <$> ms) → m ∈ ms → m' ∈ ms → m_id m = m_id m' → m = m'.
Proof.
  induction ms as [|x ms IH]; intros Hnd Hm Hm' Hid.
  - by apply elem_of_nil in Hm.
  - rewrite fmap_cons in Hnd. apply NoDup_cons in Hnd as [Hx Hnd].
    apply elem_of_cons in Hm as [->|Hm]; apply elem_of_cons in Hm' as [->|Hm'].
    + done.
    + exfalso. apply Hx. rewrite Hid. by apply list_elem_of_fmap_2.
    + exfalso. apply Hx. rewrite <- Hid. by apply list_elem_of_fmap_2.
    + by apply IH.
Qed.

(** A message outlives the deletion of every other message. *)
Lemma delete_keeps m m' w c :
  m ∈ default [] (w_history w !! c) → m_id m ≠ m_id m' →
  m ∈ default [] (w_history (delete m' w).2 !! c).
Proof.
  intros Hin Hne. simpl.
  destruct (decide (m_channel m' = c)) as [<-|Hc].
  - rewrite lookup_alter_eq.
    destruct (w_history w !! m_channel m') as [ms|]; simpl in *.
    + apply list_elem_of_filter. by split.
    + by apply elem_of_nil in Hin.
  - by rewrite lookup_alter_ne.
Qed.

Lemma delete_n_keeps n m m' w c :
  m ∈ default [] (w_history w !! c) → (n ≠ 0%nat → m_id m ≠ m_id m') →
  m ∈ default [] (w_history (delete_n n m' w) !! c).
Proof.
  revert w. induction n as [|n IH]; intros w Hin Hne; [done|].
  cbn [delete_n]. apply IH; [|intros _; by apply Hne].
  apply delete_keeps; [done|]. by apply Hne.
Qed.

Lemma after_rounds_keeps needle ms m w c :
  m ∈ default [] (w_history w !! c) →
  (∀ m', m' ∈ ms → (0 < round_deletes needle m')%nat → m_id m ≠ m_id m') →
  m ∈ default [] (w_history (after_rounds needle ms w) !! c).
Proof.
  unfold after_rounds. revert w.
  induction ms as [|x ms IH]; intros w Hin Hne; [done|].
  simpl. apply IH.
  - apply delete_n_keeps; [done|]. intros Hn. apply Hne; [by left|lia].
  - intros m' Hm'. apply Hne. by right.
Qed.

(** ** The cleanup pass (lines 193-199 and 228-234) *)

(** C3, as amended: the cleanup pass over a channel's history calls
    [m.delete()] on a historical message if and only if one of its
    attachments has a filename containing [transcript-{channel.name}.html]
    and every attachment in front of that one has a string for a filename
    (so that no [TypeError] ends the round before the match is reached).
    For a message whose attachments all have string filenames this is: if
    and only if some attachment matches.  A message none of whose
    attachments matches is left untouched: no delete is issued for it and it
    is still in the channel's history after the pass.  The ids of the
    messages of the history are distinct, as the platform's are. *)
Theorem cleanup_deletes_reached_matches (l : loc) (ch : Channel) (w : World) :
  w_chans w !! l = Some ch →
  NoDup (m_id <$> history_of w ch) →
  ∃ w', cleanup (Some l) w = (Ret tt, w') ∧
        ∀ m, m ∈ history_of w ch →
             let needle := transcript_filename (ch_name ch) in
             (deleted_by w w' m ↔ reaches_match needle m) ∧
             (string_named m → (deleted_by w w' m ↔ has_match needle m)) ∧
             (¬ has_match needle m →
              ¬ deleted_by w w' m ∧ m ∈ history_of w' ch).
Proof.
  intros Hl Hnd. eexists. split; [by apply cleanup_run|].
  intros m Hm needle.
  set (w' := after_rounds _ _ _).
  assert (Hev : ∀ m0, m0 ∈ history_of w ch →
                      (deleted_by w w' m0 ↔ reaches_match needle m0)).
  { intros m0 Hm0. unfold deleted_by.
    rewrite (new_events_app w w'
      (EvHistory (ch_id ch) ::
       flat_map (fun m => repeat (EvDelete (m_id m)) (round_deletes needle m))
                (history_of w ch))).
    2:{ unfold w'. rewrite after_rounds_trace. simpl.
        by rewrite <- app_assoc. }
    rewrite elem_of_cons, delete_issued, <- round_deletes_pos. split.
    - intros [?|(m1 & Hm1 & Hid & Hpos)]; [done|].
      by rewrite (unique_id _ m0 m1 Hnd Hm0 Hm1).
    - intros Hpos. right. by exists m0. }
  split_and!.
  - by apply Hev.
  - intros Hnamed. rewrite (Hev m Hm). split.
    + apply reaches_match_has_match.
    + by apply has_match_reaches_match.
  - intros Hno. split.
    + rewrite (Hev m Hm). intros Hr. by apply Hno, reaches_match_has_match.
    + unfold history_of, w'.
      apply after_rounds_keeps; [done|].
      intros m' Hm' Hpos Hid. apply Hno, reaches_match_has_match.
      apply round_deletes_pos.
      by rewrite (unique_id _ m m' Hnd Hm Hm').
Qed.

Lemma cleanup_deletes_reached_matches_witness :
  ∃ w', cleanup (Some 1%nat) world0 = (Ret tt, w') ∧
        ∀ m, m ∈ history_of world0 support_channel →
             let needle := transcript_filename (ch_name support_channel) in
             (deleted_by world0 w' m ↔ reaches_match needle m) ∧
             (string_named m → (deleted_by world0 w' m ↔ has_match needle m)) ∧
             (¬ has_match needle m →
              ¬ deleted_by world0 w' m ∧ m ∈ history_of w' support_channel).
Proof.
  apply (cleanup_deletes_reached_matches 1%nat support_channel world0).
  - reflexivity.
  - apply (bool_decide_unpack _). vm_compute. exact I.
Defined.

(** C3, as the claim has it, fails: a historical message with an attachment
    named [transcript-support.html] is not deleted when an attachment in
    front of it has no string filename. *)
Lemma cleanup_skips_shadowed_match :
  nameless_then_transcript ∈ history_of shadowed_world support_channel ∧
  has_match (transcript_filename "support") nameless_then_transcript ∧
  ¬ deleted_by shadowed_world (cleanup (Some 1%nat) shadowed_world).2
               nameless_then_transcript.
Proof.
  split_and!.
  - vm_compute. by left.
  - eexists _, (mkAttachment (Some "transcript-support.html") _).
    split_and!; [reflexivity| |reflexivity]. right. by left.
  - unfold deleted_by. vm_compute. intros H.
    apply elem_of_cons in H as [H|H]; [discriminate|].
    by apply elem_of_nil in H.
Qed.

Lemma inspect_body_run l ch m w :
  w_chans w !! l = Some ch →
  inspect_body (Some l) m w =
  (match m_attachments m with
   | Some fs => if nameless fs then Raise TypeError else Ret tt
   | None => Raise TypeError
   end,
   delete_n (round_deletes (transcript_filename (ch_name ch)) m) m w).
Proof.
  intros Hl. unfold inspect_body, round_deletes.
  destruct (m_attachments m) as [fs|]; [|done].
  by apply inspect_attachments_run.
Qed.

Lemma no_diagnostic_in_deletes (id : Z) (n : nat) :
  List.filter is_diagnostic (repeat (EvDelete id) n) = [].
Proof. induction n as [|n IH]; [done|]. simpl. exact IH. Qed.

(** C6, as amended: when inspecting a historical message's attachments
    raises a [TypeError], the exception is swallowed, the remaining
    attachments of that message are not inspected, nothing but the deletes
    already issued reaches the log (no diagnostics), and the iteration goes
    on with the next message from the world the error left.  The message
    has been deleted exactly when an attachment in front of the offending
    one matched; when none did, the round leaves the world as it was. *)
Theorem type_error_ends_round (l : loc) (ch : Channel) (m : Message)
    (ms : list Message) (w w1 : World) :
  w_chans w !! l = Some ch →
  inspect_body (Some l) m w = (Raise TypeError, w1) →
  let needle := transcript_filename (ch_name ch) in
  inspect_message (Some l) m w = (Ret tt, w1) ∧
  cleanup_loop (Some l) (m :: ms) w = cleanup_loop (Some l) ms w1 ∧
  new_events w w1 = repeat (EvDelete (m_id m)) (round_deletes needle m) ∧
  List.filter is_diagnostic (new_events w w1) = [] ∧
  (deleted_by w w1 m ↔ reaches_match needle m) ∧
  (¬ reaches_match needle m → w1 = w).
Proof.
  intros Hl Hbody needle.
  assert (Hw1 : w1 = delete_n (round_deletes needle m) m w).
  { rewrite (inspect_body_run l ch m w Hl) in Hbody. by injection Hbody. }
  assert (Hround : inspect_message (Some l) m w = (Ret tt, w1)).
  { unfold inspect_message, try_except. by rewrite Hbody. }
  assert (Hnew : new_events w w1 =
                 repeat (EvDelete (m_id m)) (round_deletes needle m)).
  { apply new_events_app. rewrite Hw1. apply delete_n_trace. }
  split_and!.
  - done.
  - simpl. unfold bind. by rewrite Hround.
  - done.
  - rewrite Hnew. apply no_diagnostic_in_deletes.
  - unfold deleted_by. rewrite Hnew, <- round_deletes_pos.
    rewrite list_elem_of_In. split.
    + intros Hin. destruct (round_deletes needle m); [done|lia].
    + intros Hpos. destruct (round_deletes needle m); [lia|]. by left.
  - rewrite <- round_deletes_pos. intros Hno. rewrite Hw1.
    destruct (round_deletes needle m); [done|]. exfalso. apply Hno. lia.
Qed.

Lemma type_error_ends_round_witness :
  let w1 := (inspect_body (Some 1%nat) transcript_then_nameless
                          trailing_world).2 in
  let needle := transcript_filename (ch_name support_channel) in
  inspect_message (Some 1%nat) transcript_then_nameless trailing_world
  = (Ret tt, w1) ∧
  cleanup_loop (Some 1%nat) [transcript_then_nameless; photo] trailing_world
  = cleanup_loop (Some 1%nat) [photo] w1 ∧
  new_events trailing_world w1 =
  repeat (EvDelete (m_id transcript_then_nameless))
         (round_deletes needle transcript_then_nameless) ∧
  List.filter is_diagnostic (new_events trailing_world w1) = [] ∧
  (deleted_by trailing_world w1 transcript_then_nameless ↔
   reaches_match needle transcript_then_nameless) ∧
  (¬ reaches_match needle transcript_then_nameless → w1 = trailing_world).
Proof.
  apply (type_error_ends_round 1%nat support_channel transcript_then_nameless
           [photo] trailing_world).
  - reflexivity.
  - vm_compute. reflexivity.
Defined.

(** C6, as the claim has it, fails: inspecting the message raises a
    [TypeError] at its second attachment, after the first one matched; the
    message is deleted all the same. *)
Lemma type_error_after_delete :
  let round := inspect_message (Some 1%nat) transcript_then_nameless
                               trailing_world in
  (inspect_body (Some 1%nat) transcript_then_nameless trailing_world).1
  = Raise TypeError ∧
  round.1 = Ret tt ∧
  deleted_by trailing_world round.2 transcript_then_nameless ∧
  transcript_then_nameless ∉ history_of round.2 support_channel.
Proof.
  split_and!.
  - vm_compute. reflexivity.
  - vm_compute. reflexivity.
  - unfold deleted_by. vm_compute. by left.
  - vm_compute. intros H.
    apply elem_of_cons in H as [H|H]; [discriminate|].
    by apply elem_of_nil in H.
Qed.

(** ** The disk-writing [quick_export] (lines 205-238) *)

Arguments py_int : simpl never.

Lemma app_snoc2 {A} (l : list A) (a b : A) : (l ++ [a]) ++ [b] = l ++ [a; b].
Proof. by rewrite <- app_assoc. Qed.

(** The run up to the builder, and what each answer of the builder leads
    to. *)
Lemma l205_run (B : World → TranscriptArgs → res Transcript) client guild
    channel ticket_id w gid cid g l ch :
  resolves client guild channel w gid cid g l ch →
  quick_export_l205 B channel guild ticket_id (Some client) w =
  let wb := at_builder w gid cid g l ch in
  let wt := mkWorld (w_chans wb) (w_history wb) (w_fs wb)
                    (w_trace w ++ [EvGetGuild gid; EvGetChannel g cid;
                                   EvTranscript (l205_args l)]) in
  match B wb (l205_args l) with
  | Ret t =>
      bind (cleanup (Some l))
           (fun _ => write_ticket (Some l) ticket_id (html t)) wt
  | Raise e =>
      if is_Exception e
      then (Ret tt,
            mkWorld (w_chans wb) (w_history wb) (w_fs wb)
                    (w_trace w ++
                     [EvGetGuild gid; EvGetChannel g cid;
                      EvTranscript (l205_args l); EvPrintExc e;
                      EvSend (ch_id ch) (Some error_embed) None;
                      EvPrint screenshot_notice]))
      else (Raise e, wt)
  end.
Proof.
  intros (Hgi & Hg & Hci & Hc & Hl).
  unfold quick_export_l205, get_guild, get_channel, try_except, export,
    assign_guild, build, set_guild, bind, lift, log, ret.
  rewrite Hgi. simpl. rewrite Hg, Hci. simpl. rewrite Hc, Hl. simpl.
  rewrite !app_snoc2.
  fold (with_guild ch g). fold (l205_args l).
  change (mkWorld (<[l:=with_guild ch g]> (w_chans w)) (w_history w) (w_fs w)
            (w_trace w ++ [EvGetGuild gid; EvGetChannel g cid]))
    with (at_builder w gid cid g l ch).
  destruct (B (at_builder w gid cid g l ch) (l205_args l)) as [t|e].
  - simpl. rewrite <- app_assoc. done.
  - destruct (is_Exception e); [|by rewrite <- app_assoc].
    unfold report_failure, print_exc, send, deref, print, bind, log, ret.
    simpl. rewrite lookup_insert_eq. simpl. by rewrite <- !app_assoc.
Qed.

Lemma fs_insert_insert (fs : FileSystem) (path d d' : string) :
  <[path := d']> (<[path := d]> fs) = <[path := d']> fs.
Proof.
  unfold insert, fs_insert. simpl. f_equal. apply insert_insert_eq.
Qed.

Lemma write_ticket_run l ch ticket_id data w :
  w_chans w !! l = Some ch →
  can_open w (ticket_path (ch_name ch) ticket_id) →
  write_ticket (Some l) ticket_id data w =
  (Ret tt,
   mkWorld (w_chans w) (w_history w)
           (<[ticket_path (ch_name ch) ticket_id := data]> (w_fs w))
           (w_trace w ++ [EvOpen (ticket_path (ch_name ch) ticket_id);
                          EvWrite (ticket_path (ch_name ch) ticket_id) data])).
Proof.
  intros Hl Hopen. unfold write_ticket, bind at 1, deref. rewrite Hl.
  unfold open_write. fold (ticket_path (ch_name ch) ticket_id).
  unfold can_open in Hopen. rewrite Hopen. clear Hopen.
  generalize (ticket_path (ch_name ch) ticket_id) as path. intros path.
  unfold bind, log. cbv beta iota. cbn [w_chans w_history w_fs w_trace].
  rewrite fs_insert_insert, <- app_assoc. done.
Qed.

(** An [open] that fails ends [write_ticket] with the world untouched. *)
Lemma write_ticket_fails l ch ticket_id data w e :
  w_chans w !! l = Some ch →
  open_error (w_fs w) (ticket_path (ch_name ch) ticket_id) = Some e →
  write_ticket (Some l) ticket_id data w = (Raise e, w).
Proof.
  intros Hl Hopen. unfold write_ticket, bind at 1, deref. rewrite Hl.
  unfold open_write. fold (ticket_path (ch_name ch) ticket_id).
  by rewrite Hopen.
Qed.


(** An exception that is no instance of [Exception] passes the handler of
    line 217: nothing is sent and the exception leaves [quick_export]. *)
Lemma quick_export_l205_base_exception
    (B : World → TranscriptArgs → res Transcript) client guild channel
    ticket_id w gid cid g l ch e :
  resolves client guild channel w gid cid g l ch →
  B (at_builder w gid cid g l ch) (l205_args l) = Raise e →
  is_Exception e = false →
  quick_export_l205 B channel guild ticket_id (Some client) w =
  (Raise e,
   mkWorld (<[l := with_guild ch g]> (w_chans w)) (w_history w) (w_fs w)
           (w_trace w ++
            [EvGetGuild gid; EvGetChannel g cid; EvTranscript (l205_args l)])).
Proof.
  intros Hres HB He.
  rewrite (l205_run B client guild channel ticket_id w gid cid g l ch Hres).
  cbv zeta. by rewrite HB, He.
Qed.

(** C1, as amended: when the lookups succeed and the transcript builder
    raises an exception that is an instance of [Exception], the disk-writing
    [quick_export] prints the traceback, sends exactly one embed, titled
    "Transcript Generation Failed!", to the channel, prints the notice of
    line 225 on the console and returns [None].  It reads no history,
    deletes no message and opens or writes no file: the platform history
    and the file system are those of the start. *)
Theorem quick_export_l205_builder_raises
    (B : World → TranscriptArgs → res Transcript) (client : Client)
    (guild : option string) (channel : string) (ticket_id : option string)
    (w : World) (gid cid : Z) (g : Guild) (l : loc) (ch : Channel) (e : exn) :
  resolves client guild channel w gid cid g l ch →
  B (at_builder w gid cid g l ch) (l205_args l) = Raise e →
  is_Exception e = true →
  let failed :=
    mkEmbed (Some "Transcript Generation Failed!")
            (Some "Whoops! We've stumbled in to an issue here.") red in
  ∃ w',
    quick_export_l205 B channel guild ticket_id (Some client) w = (Ret tt, w') ∧
    new_events w w' =
      [EvGetGuild gid; EvGetChannel g cid; EvTranscript (l205_args l);
       EvPrintExc e; EvSend (ch_id ch) (Some failed) None;
       EvPrint "Please send a screenshot of the above error to https://www.github.com/mahtoid/DiscordChatExporterPy"] ∧
    List.filter is_send (new_events w w') =
      [EvSend (ch_id ch) (Some failed) None] ∧
    List.filter is_file_event (new_events w w') = [] ∧
    List.filter is_delete (new_events w w') = [] ∧
    w_fs w' = w_fs w ∧
    w_history w' = w_history w.
Proof.
  intros Hres HB He failed.
  rewrite (l205_run B client guild channel ticket_id w gid cid g l ch Hres).
  cbv zeta. rewrite HB, He. eexists. split; [reflexivity|].
  erewrite new_events_app; [|reflexivity]. done.
Qed.

Lemma quick_export_l205_builder_raises_witness :
  let failed :=
    mkEmbed (Some "Transcript Generation Failed!")
            (Some "Whoops! We've stumbled in to an issue here.") red in
  ∃ w',
    quick_export_l205 (builder_raises ValueError) "222" (Some "111")
                      (Some "42") (Some bot_client) world0 = (Ret tt, w') ∧
    new_events world0 w' =
      [EvGetGuild 111; EvGetChannel home_guild 222;
       EvTranscript (l205_args 1%nat); EvPrintExc ValueError;
       EvSend (ch_id support_channel) (Some failed) None;
       EvPrint "Please send a screenshot of the above error to https://www.github.com/mahtoid/DiscordChatExporterPy"] ∧
    List.filter is_send (new_events world0 w') =
      [EvSend (ch_id support_channel) (Some failed) None] ∧
    List.filter is_file_event (new_events world0 w') = [] ∧
    List.filter is_delete (new_events world0 w') = [] ∧
    w_fs w' = w_fs world0 ∧
    w_history w' = w_history world0.
Proof.
  apply (quick_export_l205_builder_raises (builder_raises ValueError)
           bot_client (Some "111") "222" (Some "42") world0 111 222 home_guild
           1%nat support_channel ValueError).
  - repeat split; vm_compute; reflexivity.
  - reflexivity.
  - reflexivity.
Defined.

(** C1, as the claim has it, fails on two counts.  A builder exception that
    is no instance of [Exception] (a cancellation, say) passes the handler:
    no embed is sent and [quick_export] does not return.  And when the
    exception is caught, sending the embed is not the last thing done: the
    notice of line 225 is printed after it. *)
Lemma quick_export_l205_escape_and_notice :
  let escaped :=
    quick_export_l205 (builder_raises (BaseOnly "CancelledError")) "222"
                      (Some "111") (Some "42") (Some bot_client) world0 in
  let caught :=
    quick_export_l205 (builder_raises ValueError) "222" (Some "111")
                      (Some "42") (Some bot_client) world0 in
  escaped.1 = Raise (BaseOnly "CancelledError") ∧
  List.filter is_send (w_trace escaped.2) = [] ∧
  caught.1 = Ret tt ∧
  w_trace caught.2 =
    [EvGetGuild 111; EvGetChannel home_guild 222;
     EvTranscript (l205_args 1%nat); EvPrintExc ValueError;
     EvSend 222
       (Some (mkEmbed (Some "Transcript Generation Failed!")
                      (Some "Whoops! We've stumbled in to an issue here.")
                      red))
       None;
     EvPrint "Please send a screenshot of the above error to https://www.github.com/mahtoid/DiscordChatExporterPy"].
Proof. split_and!; vm_compute; reflexivity. Qed.




(** ** What a computation can add to the log *)

Section Emits.

Context {P : event → Prop}.

Lemma emits_pure {A} (f : World → res A) : emits P (fun w => (f w, w)).
Proof. intros w. exists []. simpl. by rewrite app_nil_r. Qed.

Lemma emits_ret {A} (a : A) : emits P (ret a).
Proof. apply (emits_pure (fun _ => Ret a)). Qed.

Lemma emits_raise {A} (e : exn) : emits P (raise (A:=A) e).
Proof. apply (emits_pure (fun _ => Raise e)). Qed.

Lemma emits_lift {A} (r : res A) : emits P (lift r).
Proof. apply (emits_pure (fun _ => r)). Qed.

Lemma emits_log (e : event) : P e → emits P (log e).
Proof. intros He w. exists [e]. simpl. split; [done|]. by constructor. Qed.

Lemma emits_bind {A B} (m : M A) (k : A → M B) :
  emits P m → (∀ a, emits P (k a)) → emits P (bind m k).
Proof.
  intros Hm Hk w. destruct (Hm w) as (evs & Htr & Hevs). unfold bind.
  destruct (m w) as [[a|e] w1]; simpl in *.
  - destruct (Hk a w1) as (evs' & Htr' & Hevs').
    exists (evs ++ evs'). rewrite Htr', Htr, app_assoc.
    split; [done|]. by apply Forall_app.
  - by exists evs.
Qed.

Lemma emits_try_except {A} (body : M A) (handles : exn → bool)
    (handler : exn → M A) :
  emits P body → (∀ e, emits P (handler e)) →
  emits P (try_except body handles handler).
Proof.
  intros Hb Hh w. destruct (Hb w) as (evs & Htr & Hevs). unfold try_except.
  destruct (body w) as [[a|e] w1]; simpl in *; [by exists evs|].
  destruct (handles e); [|by exists evs].
  destruct (Hh e w1) as (evs' & Htr' & Hevs').
  exists (evs ++ evs'). rewrite Htr', Htr, app_assoc.
  split; [done|]. by apply Forall_app.
Qed.

Lemma emits_deref (channel : option loc) : emits P (deref channel).
Proof.
  intros w. exists []. rewrite app_nil_r. unfold deref.
  destruct channel as [l|]; [|done]. by destruct (w_chans w !! l).
Qed.

Lemma emits_set_guild (channel : option loc) (g : Guild) :
  emits P (set_guild channel g).
Proof.
  intros w. exists []. rewrite app_nil_r. unfold set_guild.
  destruct channel as [l|]; [|done]. by destruct (w_chans w !! l).
Qed.

Lemma emits_assign_guild (channel : option loc) (guild : option Guild) :
  emits P (assign_guild channel guild).
Proof.
  destruct guild; [apply emits_set_guild|apply emits_ret].
Qed.

Lemma emits_delete (m : Message) : P (EvDelete (m_id m)) → emits P (delete m).
Proof.
  intros Hm w. exists [EvDelete (m_id m)]. split; [done|]. by constructor.
Qed.

Lemma emits_send (channel : option loc) embed file :
  (∀ id, P (EvSend id embed file)) → emits P (send channel embed file).
Proof.
  intros HP. unfold send. apply emits_bind; [apply emits_deref|]. intros ch.
  apply emits_bind; [by apply emits_log|]. intros _. apply emits_ret.
Qed.

Lemma emits_history (channel : option loc) :
  (∀ id, P (EvHistory id)) → emits P (history channel).
Proof.
  intros HP. unfold history. apply emits_bind; [apply emits_deref|].
  intros ch. apply emits_bind; [by apply emits_log|]. intros _.
  apply (emits_pure (fun w => Ret (default [] (w_history w !! ch_id ch)))).
Qed.

Lemma emits_open_write (path data : string) :
  P (EvOpen path) → P (EvWrite path data) → emits P (open_write path data).
Proof.
  intros Ho Hw w. unfold open_write.
  destruct (open_error (w_fs w) path).
  - exists []. simpl. by rewrite app_nil_r.
  - exists [EvOpen path; EvWrite path data]. simpl.
    rewrite <- app_assoc. split; [done|]. by repeat constructor.
Qed.

Lemma emits_build B (a : TranscriptArgs) :
  P (EvTranscript a) → emits P (build B a).
Proof.
  intros Ha w. exists [EvTranscript a]. unfold build, bind, lift. simpl.
  split; [done|]. by constructor.
Qed.

Lemma emits_export B channel limit tz guild bot mt ft before after sd ah :
  (∀ a, P (EvTranscript a)) →
  emits P (export B channel limit tz guild bot mt ft before after sd ah).
Proof.
  intros Ha. unfold export.
  apply emits_bind; [apply emits_assign_guild|]. intros _.
  apply emits_bind; [by apply emits_build|]. intros t. apply emits_ret.
Qed.

Lemma emits_inspect_attachments channel m fs :
  P (EvDelete (m_id m)) → emits P (inspect_attachments channel m fs).
Proof.
  intros Hm. induction fs as [|f fs IH]; simpl; [apply emits_ret|].
  apply emits_bind; [apply emits_deref|]. intros ch.
  apply emits_bind; [apply emits_lift|]. intros hit.
  apply emits_bind; [|done].
  destruct hit; [by apply emits_delete|apply emits_ret].
Qed.

Lemma emits_cleanup (channel : option loc) :
  (∀ id, P (EvHistory id)) → (∀ id, P (EvDelete id)) →
  emits P (cleanup channel).
Proof.
  intros Hh Hd. unfold cleanup.
  apply emits_bind; [by apply emits_history|]. intros ms.
  induction ms as [|m ms IH]; simpl; [apply emits_ret|].
  apply emits_bind; [|done].
  apply emits_try_except; [|intros _; apply emits_ret].
  unfold inspect_body. destruct (m_attachments m).
  - by apply emits_inspect_attachments.
  - apply emits_raise.
Qed.

Lemma emits_write_ticket channel ticket_id data :
  (∀ p, P (EvOpen p)) → (∀ p, P (EvWrite p data)) →
  emits P (write_ticket channel ticket_id data).
Proof.
  intros Ho Hw. unfold write_ticket.
  apply emits_bind; [apply emits_deref|]. intros ch.
  by apply emits_open_write.
Qed.

Lemma emits_report_failure {A} channel e :
  P (EvPrintExc e) → (∀ id, P (EvSend id (Some error_embed) None)) →
  P (EvPrint screenshot_notice) →
  emits P (report_failure (A:=A) channel e).
Proof.
  intros H1 H2 H3. unfold report_failure, print_exc, print.
  apply emits_bind; [by apply emits_log|]. intros _.
  apply emits_bind; [by apply emits_send|]. intros _.
  apply emits_bind; [by apply emits_log|]. intros _. apply emits_ret.
Qed.

End Emits.

Lemma bind_step {A B} (m : M A) (k : A → M B) (w w1 : World) (a : A) :
  m w = (Ret a, w1) → bind m k w = k a w1.
Proof. intros H. unfold bind. by rewrite H. Qed.

Lemma get_guild_run client guild gid w :
  py_int guild = Ret gid →
  get_guild (Some client) guild w =
  (Ret (c_guilds client !! gid),
   mkWorld (w_chans w) (w_history w) (w_fs w) (w_trace w ++ [EvGetGuild gid])).
Proof. intros H. unfold get_guild, bind, lift. by rewrite H. Qed.

Lemma get_channel_run g channel cid w :
  py_int channel = Ret cid →
  get_channel (Some g) channel w =
  (Ret (g_channels g !! cid),
   mkWorld (w_chans w) (w_history w) (w_fs w)
           (w_trace w ++ [EvGetChannel g cid])).
Proof. intros H. unfold get_channel, bind, lift. by rewrite H. Qed.

(** C5: in every run of the disk-writing [quick_export] with identifier
    strings that are integers and a guild the client knows, the first effect
    is the guild lookup [client.get_guild], the second is the channel lookup
    [get_channel] on the guild that lookup returned, and no further lookup
    follows, whatever the rest of the run does. *)
Theorem quick_export_l205_guild_first
    (B : World → TranscriptArgs → res Transcript) (client : Client)
    (guild : option string) (channel : string) (ticket_id : option string)
    (w : World) (gid cid : Z) (g : Guild) :
  py_int guild = Ret gid →
  c_guilds client !! gid = Some g →
  py_int (Some channel) = Ret cid →
  ∃ rest,
    new_events w (quick_export_l205 B channel guild ticket_id (Some client) w).2
    = EvGetGuild gid :: EvGetChannel g cid :: rest ∧
    Forall no_lookup rest.
Proof.
  intros Hgi Hg Hci. unfold quick_export_l205.
  rewrite (bind_step _ _ _ _ _ (get_guild_run client guild gid w Hgi)).
  rewrite Hg.
  rewrite (bind_step _ _ _ _ _ (get_channel_run g (Some channel) cid _ Hci)).
  match goal with
  | |- context [bind ?m ?k ?w2] =>
      assert (Hrest : emits no_lookup (bind m k)); [|destruct (Hrest w2) as (rest & Htr & Hno)]
  end.
  { apply emits_bind.
    - apply emits_try_except.
      + apply emits_bind; [by apply emits_export|]. intros t. apply emits_ret.
      + intros e. by apply emits_report_failure.
    - intros [t|]; [|apply emits_ret].
      apply emits_bind; [by apply emits_cleanup|]. intros _.
      by apply emits_write_ticket. }
  exists rest. split; [|done].
  apply new_events_app. rewrite Htr. simpl. by rewrite <- !app_assoc.
Qed.

Lemma quick_export_l205_guild_first_witness :
  ∃ rest,
    new_events world0
      (quick_export_l205 (builder_returns "<html/>") "222" (Some "111")
                         (Some "42") (Some bot_client) world0).2
    = EvGetGuild 111 :: EvGetChannel home_guild 222 :: rest ∧
    Forall no_lookup rest.
Proof.
  apply (quick_export_l205_guild_first (builder_returns "<html/>") bot_client
           (Some "111") "222" (Some "42") world0 111 222 home_guild).
  - vm_compute. reflexivity.
  - vm_compute. reflexivity.
  - vm_compute. reflexivity.
Defined.

(** ** The guild assignment of [export], [raw_export] and the posting
    [quick_export] *)

Lemma assign_guild_some l ch g w :
  w_chans w !! l = Some ch →
  assign_guild (Some l) (Some g) w =
  (Ret tt,
   mkWorld (<[l := with_guild ch g]> (w_chans w)) (w_history w) (w_fs w)
           (w_trace w)).
Proof. intros Hl. unfold assign_guild, set_guild. by rewrite Hl. Qed.

Lemma build_chans B a w : w_chans (build B a w).2 = w_chans w.
Proof. unfold build, bind, lift, log. simpl. by destruct (B w a). Qed.

Lemma send_chans channel embed file w :
  w_chans (send channel embed file w).2 = w_chans w.
Proof.
  unfold send, deref, bind, log, ret.
  destruct channel as [l|]; [|done]. by destruct (w_chans w !! l).
Qed.

Lemma export_chans B channel limit tz guild bot mt ft before after sd ah w :
  w_chans (export B channel limit tz guild bot mt ft before after sd ah w).2
  = w_chans (assign_guild channel guild w).2.
Proof.
  unfold export, bind at 1.
  destruct (assign_guild channel guild w) as [[[]|e] w1]; [|done].
  unfold bind at 1.
  pose proof (build_chans B (mkTranscriptArgs channel limit None tz mt ft
                               before after sd bot ah) w1) as Hb.
  by destruct (build B _ w1) as [[t|e] w2].
Qed.

Lemma raw_export_chans B channel messages tz guild bot mt ft sd ah w :
  w_chans (raw_export B channel messages tz guild bot mt ft sd ah w).2
  = w_chans (assign_guild channel guild w).2.
Proof.
  unfold raw_export, bind at 1.
  destruct (assign_guild channel guild w) as [[[]|e] w1]; [|done].
  unfold bind at 1.
  pose proof (build_chans B (mkTranscriptArgs channel None (Some messages) tz
                               mt ft None None sd bot ah) w1) as Hb.
  by destruct (build B _ w1) as [[t|e] w2].
Qed.

Lemma quick_export_l11_chans B channel guild bot w :
  w_chans (quick_export_l11 B channel guild bot w).2
  = w_chans (assign_guild channel guild w).2.
Proof.
  unfold quick_export_l11, bind at 1.
  destruct (assign_guild channel guild w) as [[[]|e] w1]; [|done].
  unfold bind at 1.
  pose proof (build_chans B (mkTranscriptArgs channel None None "UTC"
                               (Some true) (Some true) None None (Some true)
                               bot None) w1) as Hb.
  destruct (build B _ w1) as [[t|e] w2]; simpl in *; [|done].
  destruct (py_not (html t)); [done|].
  unfold bind at 1. unfold bind at 1. unfold deref.
  destruct channel as [l|]; [|done].
  destruct (w_chans w2 !! l) as [ch|] eqn:Hl; [|done].
  cbv beta iota. rewrite Hl. unfold bind at 1.
  pose proof (send_chans (Some l)
    (Some (mkEmbed None
             (Some ("**Transcript Name:** transcript-" +:+ ch_name ch +:+ nl +:+ nl))
             blurple))
    (Some (mkFile (html t) ("transcript-" +:+ ch_name ch +:+ ".html"))) w2) as Hs.
  destruct (send _ _ _ w2) as [[p|e] w3]; simpl in *; by rewrite Hs.
Qed.

(** C8: [export], [raw_export] and the posting [quick_export], called on a
    channel object with a guild, leave the store of channel objects as it
    was except that the caller's object carries the guild: its id and name
    are those of before, and no other object changes.  Called with
    [guild=None] they leave the store as it was.  This holds whatever the
    builder answers. *)
Theorem guild_assignment_frame
    (B : World → TranscriptArgs → res Transcript) (l : loc) (ch : Channel)
    (w : World) (g : Guild) (limit : option Z) (tz : string)
    (bot : option Client) (mt ft sd : option bool) (before after : option Z)
    (ah : option AttachmentHandler) (messages : list Message) :
  w_chans w !! l = Some ch →
  let assigned := <[l := mkChannel (ch_id ch) (ch_name ch) (Some g)]> (w_chans w) in
  w_chans (export B (Some l) limit tz (Some g) bot mt ft before after sd ah w).2
  = assigned ∧
  w_chans (raw_export B (Some l) messages tz (Some g) bot mt ft sd ah w).2
  = assigned ∧
  w_chans (quick_export_l11 B (Some l) (Some g) bot w).2 = assigned ∧
  w_chans (export B (Some l) limit tz None bot mt ft before after sd ah w).2
  = w_chans w ∧
  w_chans (raw_export B (Some l) messages tz None bot mt ft sd ah w).2
  = w_chans w ∧
  w_chans (quick_export_l11 B (Some l) None bot w).2 = w_chans w.
Proof.
  intros Hl assigned.
  rewrite !export_chans, !raw_export_chans, !quick_export_l11_chans.
  rewrite (assign_guild_some l ch g w Hl). done.
Qed.

Lemma guild_assignment_frame_witness :
  let B := builder_returns "<html/>" in
  let assigned :=
    <[1%nat := mkChannel (ch_id support_channel) (ch_name support_channel)
                          (Some home_guild)]> (w_chans world0) in
  w_chans (export B (Some 1%nat) None "UTC" (Some home_guild) None (Some true)
                  (Some true) None None (Some true) None world0).2
  = assigned ∧
  w_chans (raw_export B (Some 1%nat) [photo] "UTC" (Some home_guild) None
                      (Some true) (Some true) (Some true) None world0).2
  = assigned ∧
  w_chans (quick_export_l11 B (Some 1%nat) (Some home_guild) None world0).2
  = assigned ∧
  w_chans (export B (Some 1%nat) None "UTC" None None (Some true)
                  (Some true) None None (Some true) None world0).2
  = w_chans world0 ∧
  w_chans (raw_export B (Some 1%nat) [photo] "UTC" None None
                      (Some true) (Some true) (Some true) None world0).2
  = w_chans world0 ∧
  w_chans (quick_export_l11 B (Some 1%nat) None None world0).2
  = w_chans world0.
Proof.
  apply (guild_assignment_frame (builder_returns "<html/>") 1%nat
           support_channel world0 home_guild None "UTC" None (Some true)
           (Some true) (Some true) None None None [photo]).
  reflexivity.
Defined.

(** ** [link] and [quick_link] *)

(** C4: for a message whose first attachment has the URL [u], [link]
    returns exactly [https://mahto.id/chat-exporter?url=] followed by [u],
    and has no effect. *)
Theorem link_formats_url (m : Message) (a : Attachment)
    (rest : list Attachment) (w : World) :
  m_attachments m = Some (a :: rest) →
  link m w = (Ret ("https://mahto.id/chat-exporter?url=" +:+ a_url a), w).
Proof.
  intros Hm. unfold link, bind, lift, first_attachment. by rewrite Hm.
Qed.

Lemma link_formats_url_witness :
  link old_transcript world0 =
  (Ret "https://mahto.id/chat-exporter?url=https://cdn.example.com/a.html",
   world0).
Proof.
  apply (link_formats_url old_transcript
           (mkAttachment (Some "transcript-support.html")
                         "https://cdn.example.com/a.html") [] world0).
  reflexivity.
Defined.

(** C9: [link] and [quick_link] index [message.attachments[0]] without a
    guard.  On a message with a non-empty attachment list both succeed:
    [link] returns the URL, [quick_link] sends one embed and returns the
    posted message.  On a message with an empty attachment list both raise
    [IndexError] with the world untouched: nothing was sent. *)
Theorem first_attachment_unguarded (l : loc) (ch : Channel) (m : Message)
    (fs : list Attachment) (w : World) :
  w_chans w !! l = Some ch →
  m_attachments m = Some fs →
  match fs with
  | a :: _ =>
      let embed :=
        mkEmbed (Some "Transcript Link")
          (Some ("[Click here to view the transcript](https://mahto.id/chat-exporter?url="
                 +:+ a_url a +:+ ")"))
          blurple in
      link m w = (Ret ("https://mahto.id/chat-exporter?url=" +:+ a_url a), w) ∧
      quick_link (Some l) m w =
      (Ret (mkPosted (ch_id ch) (Some embed) None),
       mkWorld (w_chans w) (w_history w) (w_fs w)
               (w_trace w ++ [EvSend (ch_id ch) (Some embed) None]))
  | [] =>
      link m w = (Raise IndexError, w) ∧
      quick_link (Some l) m w = (Raise IndexError, w)
  end.
Proof.
  intros Hl Hm.
  unfold link, quick_link, send, deref, bind, lift, log, ret, first_attachment.
  rewrite Hm. destruct fs as [|a rest]; [done|]. by rewrite Hl.
Qed.

Lemma first_attachment_unguarded_witness :
  link no_attachments world0 = (Raise IndexError, world0) ∧
  quick_link (Some 1%nat) no_attachments world0 = (Raise IndexError, world0).
Proof.
  apply (first_attachment_unguarded 1%nat support_channel no_attachments []
           world0).
  - reflexivity.
  - reflexivity.
Defined.

(** ** The three bindings of [quick_export] *)

Lemma module_globals_bindings (name : string) (d : def_id) :
  module_globals !! name = Some d →
  d = L56_export ∨ d = L104_raw_export ∨ d = L148_quick_link ∨
  d = L205_quick_export ∨ d = L240_link.
Proof.
  unfold module_globals, module_body, exec_def. simpl.
  rewrite !lookup_insert. repeat case_decide; rewrite ?lookup_empty;
    intros [= <-]; tauto.
Qed.

(** C10: the module binds [quick_export] three times and the last binding
    wins: after the module is loaded the name denotes the function of line
    205, so every call through the name runs that body (the one that calls
    [export] with [limit=10000] and writes the returned string); a call with
    the keywords of the first definition is a [TypeError].  No name of the
    module denotes the functions of lines 11 and 170. *)
Theorem quick_export_is_last_binding
    (B : World → TranscriptArgs → res Transcript)
    (Bcls : World → option loc → option Z → string → res Transcript) :
  module_globals !! "quick_export" = Some L205_quick_export ∧
  (∀ kw, call B Bcls "quick_export" kw = apply_def B Bcls L205_quick_export kw) ∧
  (∀ channel guild ticket_id client,
     call B Bcls "quick_export" (KwDisk channel guild ticket_id client) =
     (quick_export_l205 B channel guild ticket_id client ;; ret RNone)) ∧
  (∀ channel guild bot,
     call B Bcls "quick_export" (KwPost channel guild bot) = raise TypeError) ∧
  (∀ name, module_globals !! name ≠ Some L11_quick_export ∧
           module_globals !! name ≠ Some L170_quick_export).
Proof.
  assert (Hq : module_globals !! "quick_export" = Some L205_quick_export)
    by (vm_compute; reflexivity).
  split_and!.
  - done.
  - intros kw. unfold call. by rewrite Hq.
  - intros. unfold call. by rewrite Hq.
  - intros. unfold call. by rewrite Hq.
  - intros name.
    split; intros H; apply module_globals_bindings in H;
      destruct H as [H|[H|[H|[H|H]]]]; discriminate.
Qed.

(** ** A falsy transcript *)

(** C7 fails on the disk-writing [quick_export].  With the builder of the
    specification, an [export] whose window matches no message returns the
    empty string, and so does the [export] of line 216 on a channel without
    messages.  The posting [quick_export] of line 11 then returns without
    sending; the disk-writing [quick_export] opens and writes the ticket
    file, empty, all the same. *)
Theorem quick_export_l205_writes_falsy_transcript :
  let B := spec_Transcript_export render_count in
  let path := "/var/www/html/transcripts/transcript-support---42---.html" in
  (export B (Some 1%nat) None "UTC" None None (Some true) (Some true)
          (Some 5) None (Some true) None world0).1 = Ret EmptyString ∧
  py_not EmptyString = true ∧
  quick_export_l11 B (Some 1%nat) None None empty_world =
  (Ret None,
   mkWorld (w_chans empty_world) (w_history empty_world) (w_fs empty_world)
           [EvTranscript
              (mkTranscriptArgs (Some 1%nat) None None "UTC" (Some true)
                 (Some true) None None (Some true) None None)]) ∧
  let run := quick_export_l205 B "222" (Some "111") (Some "42")
                               (Some bot_client) empty_world in
  run.1 = Ret tt ∧
  List.filter is_file_event (w_trace run.2) = [EvOpen path; EvWrite path EmptyString] ∧
  w_fs run.2 !! path = Some EmptyString ∧
  w_fs empty_world !! path = None.
Proof.
  cbv zeta. split_and!; vm_compute; reflexivity.
Qed.

(** ** Further properties of the disk-writing [quick_export] *)

(** X1: an identifier for the guild that [int] rejects ends the disk-writing
    [quick_export] with the exception of [int] ([TypeError] for the default
    [guild=None], [ValueError] for a string that is no literal) before any
    lookup; without a client (the default [client=None]) it ends with
    [AttributeError].  In both cases the world is left as it was. *)
Theorem quick_export_l205_bad_identifier
    (B : World → TranscriptArgs → res Transcript) (client : Client)
    (guild : option string) (channel : string) (ticket_id : option string)
    (w : World) (e : exn) :
  py_int guild = Raise e →
  quick_export_l205 B channel guild ticket_id (Some client) w = (Raise e, w) ∧
  quick_export_l205 B channel guild ticket_id None w = (Raise AttributeError, w).
Proof.
  intros Hgi. split; [|done].
  unfold quick_export_l205, get_guild, bind, lift. by rewrite Hgi.
Qed.

Lemma quick_export_l205_bad_identifier_witness :
  quick_export_l205 (builder_returns "<html/>") "222" None (Some "42")
                    (Some bot_client) world0 = (Raise TypeError, world0) ∧
  quick_export_l205 (builder_returns "<html/>") "222" None (Some "42")
                    None world0 = (Raise AttributeError, world0).
Proof.
  apply (quick_export_l205_bad_identifier (builder_returns "<html/>")
           bot_client None "222" (Some "42") world0 TypeError).
  reflexivity.
Defined.

(** X2: when the client does not know the guild, the disk-writing
    [quick_export] ends with [AttributeError] right after the guild lookup:
    no channel lookup, no builder call, nothing sent, deleted or written. *)
Theorem quick_export_l205_unknown_guild
    (B : World → TranscriptArgs → res Transcript) (client : Client)
    (guild : option string) (channel : string) (ticket_id : option string)
    (w : World) (gid : Z) :
  py_int guild = Ret gid →
  c_guilds client !! gid = None →
  quick_export_l205 B channel guild ticket_id (Some client) w =
  (Raise AttributeError, logged w [EvGetGuild gid]).
Proof.
  intros Hgi Hg.
  unfold quick_export_l205, get_guild, get_channel, bind, lift, log, ret.
  rewrite Hgi. simpl. by rewrite Hg.
Qed.

Lemma quick_export_l205_unknown_guild_witness :
  quick_export_l205 (builder_returns "<html/>") "222" (Some "999") (Some "42")
                    (Some bot_client) world0 =
  (Raise AttributeError, logged world0 [EvGetGuild 999]).
Proof.
  apply (quick_export_l205_unknown_guild (builder_returns "<html/>")
           bot_client (Some "999") "222" (Some "42") world0 999).
  - reflexivity.
  - vm_compute. reflexivity.
Defined.

(** X3: when the guild does not know the channel, [export] fails on the
    [None] channel before the builder is called; the handler of line 217
    catches that and prints the traceback, but its own [channel.send] on
    [None] raises [AttributeError], which leaves [quick_export]: no failure
    embed is sent, no file written, and the notice of line 225 is not
    printed. *)
Theorem quick_export_l205_channel_not_found
    (B : World → TranscriptArgs → res Transcript) (client : Client)
    (guild : option string) (channel : string) (ticket_id : option string)
    (w : World) (gid cid : Z) (g : Guild) :
  py_int guild = Ret gid →
  c_guilds client !! gid = Some g →
  py_int (Some channel) = Ret cid →
  g_channels g !! cid = None →
  quick_export_l205 B channel guild ticket_id (Some client) w =
  (Raise AttributeError,
   logged w [EvGetGuild gid; EvGetChannel g cid; EvPrintExc AttributeError]).
Proof.
  intros Hgi Hg Hci Hc.
  unfold quick_export_l205, get_guild, get_channel, try_except, export,
    assign_guild, set_guild, report_failure, print_exc, send, deref,
    bind, lift, log, ret, logged.
  rewrite Hgi. simpl. rewrite Hg, Hci. simpl. rewrite Hc. simpl.
  by rewrite <- !app_assoc.
Qed.

Lemma quick_export_l205_channel_not_found_witness :
  quick_export_l205 (builder_returns "<html/>") "999" (Some "111") (Some "42")
                    (Some bot_client) world0 =
  (Raise AttributeError,
   logged world0 [EvGetGuild 111; EvGetChannel home_guild 999;
                  EvPrintExc AttributeError]).
Proof.
  apply (quick_export_l205_channel_not_found (builder_returns "<html/>")
           bot_client (Some "111") "999" (Some "42") world0 111 999 home_guild).
  - reflexivity.
  - vm_compute. reflexivity.
  - reflexivity.
  - vm_compute. reflexivity.
Defined.

(** X4: an exception of the builder that is no instance of [Exception]
    passes the handler of line 217: it leaves [quick_export] with nothing
    sent and nothing printed. *)
Theorem quick_export_l205_uncaught
    (B : World → TranscriptArgs → res Transcript) (client : Client)
    (guild : option string) (channel : string) (ticket_id : option string)
    (w : World) (gid cid : Z) (g : Guild) (l : loc) (ch : Channel) (e : exn) :
  resolves client guild channel w gid cid g l ch →
  B (at_builder w gid cid g l ch) (l205_args l) = Raise e →
  is_Exception e = false →
  ∃ w',
    quick_export_l205 B channel guild ticket_id (Some client) w = (Raise e, w') ∧
    new_events w w' =
      [EvGetGuild gid; EvGetChannel g cid; EvTranscript (l205_args l)] ∧
    w_fs w' = w_fs w ∧ w_history w' = w_history w.
Proof.
  intros Hres HB He.
  rewrite (l205_run B client guild channel ticket_id w gid cid g l ch Hres).
  cbv zeta. rewrite HB, He. eexists. split; [reflexivity|].
  erewrite new_events_app; [|reflexivity]. done.
Qed.

Lemma quick_export_l205_uncaught_witness :
  ∃ w',
    quick_export_l205 (builder_raises (BaseOnly "CancelledError")) "222"
                      (Some "111") (Some "42") (Some bot_client) world0
    = (Raise (BaseOnly "CancelledError"), w') ∧
    new_events world0 w' =
      [EvGetGuild 111; EvGetChannel home_guild 222;
       EvTranscript (l205_args 1%nat)] ∧
    w_fs w' = w_fs world0 ∧ w_history w' = w_history world0.
Proof.
  apply (quick_export_l205_uncaught (builder_raises (BaseOnly "CancelledError"))
           bot_client (Some "111") "222" (Some "42") world0 111 222 home_guild
           1%nat support_channel (BaseOnly "CancelledError")).
  - repeat split; vm_compute; reflexivity.
  - reflexivity.
  - reflexivity.
Defined.

(** The world a successful run ends in. *)
Lemma l205_success_run (B : World → TranscriptArgs → res Transcript) client
    guild channel ticket_id w gid cid g l ch t :
  resolves client guild channel w gid cid g l ch →
  B (at_builder w gid cid g l ch) (l205_args l) = Ret t →
  can_open w (ticket_path (ch_name ch) ticket_id) →
  let needle := transcript_filename (ch_name ch) in
  let path := ticket_path (ch_name ch) ticket_id in
  let w2 := after_rounds needle (history_of w ch)
              (logged (at_builder w gid cid g l ch)
                      [EvTranscript (l205_args l); EvHistory (ch_id ch)]) in
  quick_export_l205 B channel guild ticket_id (Some client) w =
  (Ret tt,
   mkWorld (w_chans w2) (w_history w2) (<[path := html t]> (w_fs w2))
           (w_trace w2 ++ [EvOpen path; EvWrite path (html t)])).
Proof.
  intros Hres HB Hopen needle path w2.
  rewrite (l205_run B client guild channel ticket_id w gid cid g l ch Hres).
  cbv zeta. rewrite HB. unfold bind.
  rewrite (cleanup_run l (with_guild ch g)) by (simpl; apply lookup_insert_eq).
  rewrite (write_ticket_run l (with_guild ch g)).
  2:{ rewrite after_rounds_chans. simpl. apply lookup_insert_eq. }
  2:{ unfold can_open. by rewrite after_rounds_fs. }
  unfold w2, logged, at_history, at_builder, history_of. simpl.
  rewrite <- !app_assoc. done.
Qed.

(** The world a run ends in when [open] fails. *)
Lemma l205_open_fails_run (B : World → TranscriptArgs → res Transcript) client
    guild channel ticket_id w gid cid g l ch t e :
  resolves client guild channel w gid cid g l ch →
  B (at_builder w gid cid g l ch) (l205_args l) = Ret t →
  open_error (w_fs w) (ticket_path (ch_name ch) ticket_id) = Some e →
  quick_export_l205 B channel guild ticket_id (Some client) w =
  (Raise e,
   after_rounds (transcript_filename (ch_name ch)) (history_of w ch)
     (logged (at_builder w gid cid g l ch)
             [EvTranscript (l205_args l); EvHistory (ch_id ch)])).
Proof.
  intros Hres HB Hopen.
  rewrite (l205_run B client guild channel ticket_id w gid cid g l ch Hres).
  cbv zeta. rewrite HB. unfold bind.
  rewrite (cleanup_run l (with_guild ch g)) by (simpl; apply lookup_insert_eq).
  rewrite (write_ticket_fails l (with_guild ch g) _ _ _ e).
  2:{ rewrite after_rounds_chans. simpl. apply lookup_insert_eq. }
  2:{ by rewrite after_rounds_fs. }
  unfold logged, at_history, at_builder, history_of. simpl.
  rewrite <- !app_assoc. done.
Qed.

(** X5: a successful run of the disk-writing [quick_export] (the lookups
    resolve, the builder returns, the ticket path can be opened) does its
    work in this order: guild lookup, channel lookup, builder call, history
    read,
    the delete calls of the cleanup pass message by message, and only then
    the open and the write of the ticket file. *)
Theorem quick_export_l205_order
    (B : World → TranscriptArgs → res Transcript) (client : Client)
    (guild : option string) (channel : string) (ticket_id : option string)
    (w : World) (gid cid : Z) (g : Guild) (l : loc) (ch : Channel)
    (t : Transcript) :
  resolves client guild channel w gid cid g l ch →
  B (at_builder w gid cid g l ch) (l205_args l) = Ret t →
  can_open w (ticket_path (ch_name ch) ticket_id) →
  let path := ticket_path (ch_name ch) ticket_id in
  new_events w
    (quick_export_l205 B channel guild ticket_id (Some client) w).2 =
  [EvGetGuild gid; EvGetChannel g cid; EvTranscript (l205_args l);
   EvHistory (ch_id ch)] ++
  pass_deletes (transcript_filename (ch_name ch)) (history_of w ch) ++
  [EvOpen path; EvWrite path (html t)].
Proof.
  intros Hres HB Hopen path.
  rewrite (l205_success_run B client guild channel ticket_id w gid cid g l ch t
             Hres HB Hopen).
  apply new_events_app. simpl. rewrite after_rounds_trace. simpl.
  rewrite <- !app_assoc. done.
Qed.

Lemma quick_export_l205_order_witness :
  let path := ticket_path (ch_name support_channel) (Some "42") in
  new_events world0
    (quick_export_l205 (builder_returns "<html/>") "222" (Some "111")
                       (Some "42") (Some bot_client) world0).2 =
  [EvGetGuild 111; EvGetChannel home_guild 222; EvTranscript (l205_args 1%nat);
   EvHistory (ch_id support_channel)] ++
  pass_deletes (transcript_filename (ch_name support_channel))
               (history_of world0 support_channel) ++
  [EvOpen path; EvWrite path (html (mkTranscript "<html/>"))].
Proof.
  apply (quick_export_l205_order (builder_returns "<html/>") bot_client
           (Some "111") "222" (Some "42") world0 111 222 home_guild 1%nat
           support_channel (mkTranscript "<html/>")).
  - repeat split; vm_compute; reflexivity.
  - reflexivity.
  - vm_compute. reflexivity.
Defined.

(** X6: whatever the builder answers, the disk-writing [quick_export] has
    assigned the resolved guild to the channel object of the guild's cache
    (through [export], line 216): after the run the store of channel objects
    is the one of the start with that object carrying the guild. *)
Theorem quick_export_l205_assigns_guild
    (B : World → TranscriptArgs → res Transcript) (client : Client)
    (guild : option string) (channel : string) (ticket_id : option string)
    (w : World) (gid cid : Z) (g : Guild) (l : loc) (ch : Channel) :
  resolves client guild channel w gid cid g l ch →
  w_chans (quick_export_l205 B channel guild ticket_id (Some client) w).2 =
  <[l := mkChannel (ch_id ch) (ch_name ch) (Some g)]> (w_chans w).
Proof.
  intros Hres.
  destruct (B (at_builder w gid cid g l ch) (l205_args l)) as [t|e] eqn:HB.
  - destruct (open_error (w_fs w) (ticket_path (ch_name ch) ticket_id))
      as [e|] eqn:Hopen.
    + rewrite (l205_open_fails_run B client guild channel ticket_id w gid cid
                 g l ch t e Hres HB Hopen).
      simpl. by rewrite after_rounds_chans.
    + rewrite (l205_success_run B client guild channel ticket_id w gid cid g l
                 ch t Hres HB Hopen).
      simpl. by rewrite after_rounds_chans.
  - rewrite (l205_run B client guild channel ticket_id w gid cid g l ch Hres).
    cbv zeta. rewrite HB. by destruct (is_Exception e).
Qed.

Lemma quick_export_l205_assigns_guild_witness :
  w_chans (quick_export_l205 (builder_raises ValueError) "222" (Some "111")
                             (Some "42") (Some bot_client) world0).2 =
  <[1%nat := mkChannel (ch_id support_channel) (ch_name support_channel)
                        (Some home_guild)]> (w_chans world0).
Proof.
  apply (quick_export_l205_assigns_guild (builder_raises ValueError) bot_client
           (Some "111") "222" (Some "42") world0 111 222 home_guild 1%nat
           support_channel).
  repeat split; vm_compute; reflexivity.
Defined.

(** X7: when the ticket path can be opened, a second successful run for the
    same channel and ticket overwrites the file of the first: the file
    system after both runs is the one of the
    start with the second transcript at the ticket path, and the second run
    leaves the store of channel objects as the first left it. *)
Theorem quick_export_l205_overwrites
    (B : World → TranscriptArgs → res Transcript) (client : Client)
    (guild : option string) (channel : string) (ticket_id : option string)
    (w : World) (gid cid : Z) (g : Guild) (l : loc) (ch : Channel)
    (t1 t2 : Transcript) :
  resolves client guild channel w gid cid g l ch →
  B (at_builder w gid cid g l ch) (l205_args l) = Ret t1 →
  can_open w (ticket_path (ch_name ch) ticket_id) →
  let w1 := (quick_export_l205 B channel guild ticket_id (Some client) w).2 in
  B (at_builder w1 gid cid g l (with_guild ch g)) (l205_args l) = Ret t2 →
  let run2 := quick_export_l205 B channel guild ticket_id (Some client) w1 in
  run2.1 = Ret tt ∧
  w_fs run2.2 = <[ticket_path (ch_name ch) ticket_id := html t2]> (w_fs w) ∧
  w_chans run2.2 = w_chans w1.
Proof.
  intros Hres HB1 Hopen w1 HB2 run2.
  assert (Hw1 : w_chans w1 = <[l := with_guild ch g]> (w_chans w) ∧
                w_fs w1 = <[ticket_path (ch_name ch) ticket_id := html t1]> (w_fs w)).
  { unfold w1.
    rewrite (l205_success_run B client guild channel ticket_id w gid cid g l
               ch t1 Hres HB1 Hopen).
    simpl. by rewrite after_rounds_chans, after_rounds_fs. }
  destruct Hw1 as [Hc1 Hf1].
  assert (Hopen1 : can_open w1 (ticket_path (ch_name (with_guild ch g))
                                            ticket_id)).
  { unfold can_open. by rewrite Hf1. }
  assert (Hres1 : resolves client guild channel w1 gid cid g l (with_guild ch g)).
  { destruct Hres as (? & ? & ? & ? & ?). split_and!; try done.
    rewrite Hc1. apply lookup_insert_eq. }
  unfold run2.
  rewrite (l205_success_run B client guild channel ticket_id w1 gid cid g l
             (with_guild ch g) t2 Hres1 HB2 Hopen1).
  simpl. rewrite after_rounds_fs, after_rounds_chans. simpl.
  split_and!; [done| |].
  - by rewrite Hf1, fs_insert_insert.
  - rewrite Hc1. unfold with_guild. simpl. by rewrite insert_insert_eq.
Qed.

Lemma quick_export_l205_overwrites_witness :
  let B := spec_Transcript_export render_count in
  let w1 := (quick_export_l205 B "222" (Some "111") (Some "42")
                               (Some bot_client) world0).2 in
  let run2 := quick_export_l205 B "222" (Some "111") (Some "42")
                                (Some bot_client) w1 in
  run2.1 = Ret tt ∧
  w_fs run2.2 =
  <[ticket_path (ch_name support_channel) (Some "42")
    := html (mkTranscript "<html>1</html>")]> (w_fs world0) ∧
  w_chans run2.2 = w_chans w1.
Proof.
  apply (quick_export_l205_overwrites (spec_Transcript_export render_count)
           bot_client (Some "111") "222" (Some "42") world0 111 222 home_guild
           1%nat support_channel (mkTranscript "<html>2</html>")
           (mkTranscript "<html>1</html>")).
  - repeat split; vm_compute; reflexivity.
  - vm_compute. reflexivity.
  - vm_compute. reflexivity.
  - vm_compute. reflexivity.
Defined.

(** ** Further properties of [export], [raw_export] and the posting
    [quick_export] *)

Lemma build_run B a w : build B a w = (B w a, logged w [EvTranscript a]).
Proof. done. Qed.

(** X8: once the guild assignment is done, [export] and [raw_export] call
    the builder exactly once and do nothing else: [export] forwards its
    [limit] and window with [messages=None], [raw_export] forwards its
    messages with no limit and no window; the result is the builder's
    [.html], and an exception of the builder, of whatever class, leaves the
    function uncaught. *)
Theorem export_forwards
    (B : World → TranscriptArgs → res Transcript) (channel : option loc)
    (limit : option Z) (tz : string) (guild : option Guild)
    (bot : option Client) (mt ft sd : option bool) (before after : option Z)
    (ah : option AttachmentHandler) (messages : list Message) (w w1 : World) :
  assign_guild channel guild w = (Ret tt, w1) →
  let a := mkTranscriptArgs channel limit None tz mt ft before after sd bot ah in
  let a' := mkTranscriptArgs channel None (Some messages) tz mt ft None None
                             sd bot ah in
  export B channel limit tz guild bot mt ft before after sd ah w =
  (match B w1 a with Ret t => Ret (html t) | Raise e => Raise e end,
   logged w1 [EvTranscript a]) ∧
  raw_export B channel messages tz guild bot mt ft sd ah w =
  (match B w1 a' with Ret t => Ret (html t) | Raise e => Raise e end,
   logged w1 [EvTranscript a']).
Proof.
  intros Hg a a'. unfold export, raw_export.
  unfold bind at 1. unfold bind at 2. rewrite Hg.
  unfold bind. rewrite !build_run. fold a a'.
  by destruct (B w1 a), (B w1 a').
Qed.

Lemma export_forwards_witness :
  let B := spec_Transcript_export render_count in
  let a := mkTranscriptArgs (Some 1%nat) (Some 1) None "UTC" (Some true)
                            (Some true) None None (Some true) None None in
  let a' := mkTranscriptArgs (Some 1%nat) None (Some [photo]) "UTC" (Some true)
                             (Some true) None None (Some true) None None in
  export B (Some 1%nat) (Some 1) "UTC" None None (Some true) (Some true) None
         None (Some true) None world0 =
  (match B world0 a with Ret t => Ret (html t) | Raise e => Raise e end,
   logged world0 [EvTranscript a]) ∧
  raw_export B (Some 1%nat) [photo] "UTC" None None (Some true) (Some true)
             (Some true) None world0 =
  (match B world0 a' with Ret t => Ret (html t) | Raise e => Raise e end,
   logged world0 [EvTranscript a']).
Proof.
  apply (export_forwards (spec_Transcript_export render_count) (Some 1%nat)
           (Some 1) "UTC" None None (Some true) (Some true) (Some true) None
           None None [photo] world0 world0).
  reflexivity.
Defined.

(** Called with a guild and the channel [None], [export], [raw_export]
    and the posting [quick_export] raise [AttributeError] at the guild
    assignment: the builder is not called and the world is left as it
    was. *)
Lemma guild_assignment_on_None
    (B : World → TranscriptArgs → res Transcript) (g : Guild)
    (limit : option Z) (tz : string) (bot : option Client)
    (mt ft sd : option bool) (before after : option Z)
    (ah : option AttachmentHandler) (messages : list Message) (w : World) :
  export B None limit tz (Some g) bot mt ft before after sd ah w
  = (Raise AttributeError, w) ∧
  raw_export B None messages tz (Some g) bot mt ft sd ah w
  = (Raise AttributeError, w) ∧
  quick_export_l11 B None (Some g) bot w = (Raise AttributeError, w).
Proof. done. Qed.

(** X9: when the builder's transcript is the empty string, the posting
    [quick_export] returns [None] after the builder call: nothing is sent. *)
Theorem quick_export_l11_falsy
    (B : World → TranscriptArgs → res Transcript) (channel : option loc)
    (guild : option Guild) (bot : option Client) (w w1 : World)
    (t : Transcript) :
  assign_guild channel guild w = (Ret tt, w1) →
  B w1 (l11_args channel bot) = Ret t →
  html t = EmptyString →
  quick_export_l11 B channel guild bot w =
  (Ret None, logged w1 [EvTranscript (l11_args channel bot)]).
Proof.
  intros Hg HB Ht. unfold quick_export_l11.
  unfold bind at 1. rewrite Hg. unfold bind at 1. rewrite build_run.
  fold (l11_args channel bot). rewrite HB, Ht. done.
Qed.

Lemma quick_export_l11_falsy_witness :
  quick_export_l11 (spec_Transcript_export render_count) (Some 1%nat) None
                   None empty_world =
  (Ret None, logged empty_world [EvTranscript (l11_args (Some 1%nat) None)]).
Proof.
  apply (quick_export_l11_falsy (spec_Transcript_export render_count)
           (Some 1%nat) None None empty_world empty_world
           (mkTranscript EmptyString)).
  - reflexivity.
  - vm_compute. reflexivity.
  - reflexivity.
Defined.

(** X10: when the builder's transcript is not empty, the posting
    [quick_export] sends exactly one message to the channel, with the embed
    naming [transcript-{channel.name}] and the transcript as the file
    [transcript-{channel.name}.html], and returns the posted message. *)
Theorem quick_export_l11_posts
    (B : World → TranscriptArgs → res Transcript) (l : loc) (ch : Channel)
    (guild : option Guild) (bot : option Client) (w w1 : World)
    (t : Transcript) :
  assign_guild (Some l) guild w = (Ret tt, w1) →
  w_chans w1 !! l = Some ch →
  B w1 (l11_args (Some l) bot) = Ret t →
  html t ≠ EmptyString →
  let embed := transcript_embed (ch_name ch) in
  let file := transcript_file (ch_name ch) (html t) in
  quick_export_l11 B (Some l) guild bot w =
  (Ret (Some (mkPosted (ch_id ch) (Some embed) (Some file))),
   logged w1 [EvTranscript (l11_args (Some l) bot);
              EvSend (ch_id ch) (Some embed) (Some file)]).
Proof.
  intros Hg Hl HB Ht embed file. unfold quick_export_l11.
  unfold bind at 1. rewrite Hg. unfold bind at 1. rewrite build_run.
  fold (l11_args (Some l) bot). rewrite HB.
  assert (Hnot : py_not (html t) = false).
  { unfold py_not. by apply String.eqb_neq. }
  rewrite Hnot.
  unfold send, deref, bind, log, ret, logged. simpl.
  repeat (rewrite Hl; simpl). by rewrite <- ?app_assoc.
Qed.

Lemma quick_export_l11_posts_witness :
  let embed := transcript_embed (ch_name support_channel) in
  let file := transcript_file (ch_name support_channel)
                              (html (mkTranscript "<html/>")) in
  quick_export_l11 (builder_returns "<html/>") (Some 1%nat) None None world0 =
  (Ret (Some (mkPosted (ch_id support_channel) (Some embed) (Some file))),
   logged world0 [EvTranscript (l11_args (Some 1%nat) None);
                  EvSend (ch_id support_channel) (Some embed) (Some file)]).
Proof.
  apply (quick_export_l11_posts (builder_returns "<html/>") 1%nat
           support_channel None None world0 world0 (mkTranscript "<html/>")).
  - reflexivity.
  - reflexivity.
  - reflexivity.
  - discriminate.
Defined.

(** X11: the posting [quick_export] has no handler: an exception of the
    builder, of whatever class, leaves it after the builder call with
    nothing sent, and a guild assigned before stays assigned. *)
Theorem quick_export_l11_propagates
    (B : World → TranscriptArgs → res Transcript) (channel : option loc)
    (guild : option Guild) (bot : option Client) (w w1 : World) (e : exn) :
  assign_guild channel guild w = (Ret tt, w1) →
  B w1 (l11_args channel bot) = Raise e →
  quick_export_l11 B channel guild bot w =
  (Raise e, logged w1 [EvTranscript (l11_args channel bot)]).
Proof.
  intros Hg HB. unfold quick_export_l11.
  unfold bind at 1. rewrite Hg. unfold bind at 1. rewrite build_run.
  fold (l11_args channel bot). by rewrite HB.
Qed.

Lemma quick_export_l11_propagates_witness :
  quick_export_l11 (builder_raises ValueError) (Some 1%nat) (Some home_guild)
                   None world0 =
  (Raise ValueError,
   logged (assign_guild (Some 1%nat) (Some home_guild) world0).2
          [EvTranscript (l11_args (Some 1%nat) None)]).
Proof.
  apply (quick_export_l11_propagates (builder_raises ValueError) (Some 1%nat)
           (Some home_guild) None world0
           (assign_guild (Some 1%nat) (Some home_guild) world0).2 ValueError).
  - vm_compute. reflexivity.
  - reflexivity.
Defined.

(** ** [quick_link] after [link] *)

(** X12: whenever [link] returns a URL for a message, [quick_link] on the
    same message sends exactly one embed, titled "Transcript Link", whose
    description is the Markdown link [[Click here to view the
    transcript](URL)] around that very URL, and returns the posted
    message. *)
Theorem quick_link_wraps_link (l : loc) (ch : Channel) (m : Message)
    (url : string) (w w0 : World) :
  w_chans w !! l = Some ch →
  link m w0 = (Ret url, w0) →
  quick_link (Some l) m w =
  (Ret (mkPosted (ch_id ch) (Some (link_embed url)) None),
   logged w [EvSend (ch_id ch) (Some (link_embed url)) None]).
Proof.
  intros Hl Hlink.
  unfold link, bind, lift, ret in Hlink.
  unfold quick_link, send, deref, bind, lift, log, ret.
  destruct (first_attachment m) as [a|e]; [|discriminate].
  injection Hlink as <-. rewrite Hl. reflexivity.
Qed.

Lemma quick_link_wraps_link_witness :
  quick_link (Some 1%nat) old_transcript world0 =
  (Ret (mkPosted (ch_id support_channel)
          (Some (link_embed
                   "https://mahto.id/chat-exporter?url=https://cdn.example.com/a.html"))
          None),
   logged world0
     [EvSend (ch_id support_channel)
        (Some (link_embed
                 "https://mahto.id/chat-exporter?url=https://cdn.example.com/a.html"))
        None]).
Proof.
  apply (quick_link_wraps_link 1%nat support_channel old_transcript
           "https://mahto.id/chat-exporter?url=https://cdn.example.com/a.html"
           world0 world0).
  - reflexivity.
  - reflexivity.
Defined.

(** ** Further properties of the cleanup pass *)

Lemma delete_subset m x w c :
  x ∈ default [] (w_history (delete m w).2 !! c) →
  x ∈ default [] (w_history w !! c).
Proof.
  simpl. destruct (decide (m_channel m = c)) as [<-|Hc].
  - rewrite lookup_alter_eq.
    destruct (w_history w !! m_channel m) as [ms|]; simpl; [|done].
    intros Hx. by apply list_elem_of_filter in Hx as [_ ?].
  - by rewrite lookup_alter_ne.
Qed.

Lemma delete_removes m x w :
  m_id x = m_id m →
  x ∉ default [] (w_history (delete m w).2 !! m_channel m).
Proof.
  intros Hid. simpl. rewrite lookup_alter_eq.
  destruct (w_history w !! m_channel m) as [ms|]; simpl.
  - intros Hx. by apply list_elem_of_filter in Hx as [? _].
  - apply not_elem_of_nil.
Qed.

Lemma delete_n_subset n m x w c :
  x ∈ default [] (w_history (delete_n n m w) !! c) →
  x ∈ default [] (w_history w !! c).
Proof.
  revert w. induction n as [|n IH]; intros w; [done|].
  cbn [delete_n]. intros Hx. apply IH in Hx. by apply delete_subset in Hx.
Qed.

Lemma delete_n_removes n m x w :
  n ≠ 0%nat → m_id x = m_id m →
  x ∉ default [] (w_history (delete_n n m w) !! m_channel m).
Proof.
  intros Hn Hid. destruct n as [|n]; [done|]. cbn [delete_n].
  intros Hx. apply delete_n_subset in Hx. by apply (delete_removes m x w).
Qed.

Lemma after_rounds_subset needle ms x w c :
  x ∈ default [] (w_history (after_rounds needle ms w) !! c) →
  x ∈ default [] (w_history w !! c).
Proof.
  unfold after_rounds. revert w.
  induction ms as [|m ms IH]; intros w; [done|].
  simpl. intros Hx. apply IH in Hx. by apply delete_n_subset in Hx.
Qed.

Lemma after_rounds_removes needle ms m x w :
  m ∈ ms → (0 < round_deletes needle m)%nat → m_id x = m_id m →
  x ∉ default [] (w_history (after_rounds needle ms w) !! m_channel m).
Proof.
  unfold after_rounds. revert w.
  induction ms as [|m' ms IH]; intros w Hm Hpos Hid.
  - by apply elem_of_nil in Hm.
  - simpl. apply elem_of_cons in Hm as [<-|Hm].
    + intros Hx. apply (after_rounds_subset needle ms) in Hx.
      apply (delete_n_removes (round_deletes needle m) m x w); [lia|done|done].
    + by apply IH.
Qed.

Lemma after_rounds_none needle ms w :
  (∀ m, m ∈ ms → round_deletes needle m = 0%nat) →
  after_rounds needle ms w = w.
Proof.
  unfold after_rounds. revert w.
  induction ms as [|m ms IH]; intros w Hnone; [done|].
  simpl. rewrite (Hnone m) by (by left). simpl.
  apply IH. intros m' Hm'. apply Hnone. by right.
Qed.

(** X13: the cleanup pass changes nothing but the platform's history, and
    what it leaves in the channel's history are messages that were there
    before and that have no matching attachment within reach: none of them
    has an attachment named [...transcript-{channel.name}.html...] with only
    string-named attachments in front of it. *)
Theorem cleanup_leaves_no_match (l : loc) (ch : Channel) (w : World) :
  w_chans w !! l = Some ch →
  own_history w ch →
  let w' := (cleanup (Some l) w).2 in
  w_chans w' = w_chans w ∧ w_fs w' = w_fs w ∧
  ∀ m, m ∈ history_of w' ch →
       m ∈ history_of w ch ∧
       ¬ reaches_match (transcript_filename (ch_name ch)) m.
Proof.
  intros Hl Hown w'. unfold w'. rewrite (cleanup_run l ch w Hl). simpl.
  rewrite after_rounds_chans, after_rounds_fs. split_and!; [done|done|].
  intros m Hm. unfold history_of in Hm.
  assert (Hin : m ∈ history_of w ch).
  { by apply after_rounds_subset in Hm. }
  split; [done|]. intros Hr. apply round_deletes_pos in Hr.
  pose proof (after_rounds_removes (transcript_filename (ch_name ch))
                (history_of w ch) m m (at_history w ch) Hin Hr eq_refl) as Hrm.
  rewrite (Hown m Hin) in Hrm. by apply Hrm.
Qed.

Lemma cleanup_leaves_no_match_witness :
  let w' := (cleanup (Some 1%nat) world0).2 in
  w_chans w' = w_chans world0 ∧ w_fs w' = w_fs world0 ∧
  ∀ m, m ∈ history_of w' support_channel →
       m ∈ history_of world0 support_channel ∧
       ¬ reaches_match (transcript_filename (ch_name support_channel)) m.
Proof.
  apply (cleanup_leaves_no_match 1%nat support_channel world0).
  - reflexivity.
  - intros m Hm. vm_compute in Hm.
    apply elem_of_cons in Hm as [->|Hm]; [reflexivity|].
    apply elem_of_cons in Hm as [->|Hm]; [reflexivity|].
    by apply elem_of_nil in Hm.
Defined.

(** X14: a second cleanup pass right after the first deletes nothing: it
    reads the history and leaves the world, but for that log entry, as the
    first pass left it. *)
Theorem cleanup_twice (l : loc) (ch : Channel) (w : World) :
  w_chans w !! l = Some ch →
  own_history w ch →
  let w1 := (cleanup (Some l) w).2 in
  cleanup (Some l) w1 = (Ret tt, logged w1 [EvHistory (ch_id ch)]).
Proof.
  intros Hl Hown w1.
  assert (Hl1 : w_chans w1 !! l = Some ch).
  { unfold w1. rewrite (cleanup_run l ch w Hl). simpl.
    by rewrite after_rounds_chans. }
  rewrite (cleanup_run l ch w1 Hl1). f_equal.
  apply after_rounds_none. intros m Hm.
  assert (Hno : ¬ reaches_match (transcript_filename (ch_name ch)) m).
  { unfold w1, history_of in Hm. rewrite (cleanup_run l ch w Hl) in Hm.
    simpl in Hm.
    assert (Hin : m ∈ history_of w ch) by (by apply after_rounds_subset in Hm).
    intros Hr. apply round_deletes_pos in Hr.
    pose proof (after_rounds_removes (transcript_filename (ch_name ch))
                  (history_of w ch) m m (at_history w ch) Hin Hr eq_refl)
      as Hrm.
    rewrite (Hown m Hin) in Hrm. by apply Hrm. }
  rewrite <- round_deletes_pos in Hno.
  destruct (round_deletes (transcript_filename (ch_name ch)) m); [done|].
  exfalso. apply Hno. lia.
Qed.

Lemma cleanup_twice_witness :
  let w1 := (cleanup (Some 1%nat) world0).2 in
  cleanup (Some 1%nat) w1 =
  (Ret tt, logged w1 [EvHistory (ch_id support_channel)]).
Proof.
  apply (cleanup_twice 1%nat support_channel world0).
  - reflexivity.
  - intros m Hm. vm_compute in Hm.
    apply elem_of_cons in Hm as [->|Hm]; [reflexivity|].
    apply elem_of_cons in Hm as [->|Hm]; [reflexivity|].
    by apply elem_of_nil in Hm.
Defined.

Lemma deletes_count needle fs :
  Forall (fun f => is_Some (a_filename f)) fs →
  deletes needle fs = length (List.filter (matches needle) fs).
Proof.
  induction 1 as [|f fs [s Hs] _ IH]; [done|].
  simpl. unfold matches at 1. rewrite Hs, IH.
  by destruct (str_contains needle s).
Qed.

(** X15: the round of a message whose attachments all have string filenames
    calls [m.delete()] once per matching attachment, not once per message: a
    message with two matching attachments is deleted twice. *)
Theorem delete_per_matching_attachment (l : loc) (ch : Channel) (m : Message)
    (fs : list Attachment) (w : World) :
  w_chans w !! l = Some ch →
  m_attachments m = Some fs →
  Forall (fun f => is_Some (a_filename f)) fs →
  let hits := List.filter (matches (transcript_filename (ch_name ch))) fs in
  (inspect_message (Some l) m w).1 = Ret tt ∧
  new_events w (inspect_message (Some l) m w).2 =
  repeat (EvDelete (m_id m)) (length hits).
Proof.
  intros Hl Hm Hfs hits. rewrite (inspect_message_run l ch m w Hl).
  split; [done|]. apply new_events_app. simpl. rewrite delete_n_trace.
  unfold round_deletes. rewrite Hm. by rewrite deletes_count.
Qed.

Lemma delete_per_matching_attachment_witness :
  (inspect_message (Some 1%nat) double_transcript world0).1 = Ret tt ∧
  new_events world0 (inspect_message (Some 1%nat) double_transcript world0).2 =
  [EvDelete 506; EvDelete 506].
Proof.
  apply (delete_per_matching_attachment 1%nat support_channel double_transcript
           [mkAttachment (Some "transcript-support.html")
                         "https://cdn.example.com/d.html";
            mkAttachment (Some "old-transcript-support.html")
                         "https://cdn.example.com/e.html"] world0).
  - reflexivity.
  - reflexivity.
  - repeat constructor; by eexists.
Defined.

Lemma append_cons (c : ascii) (a b : string) :
  String c a +:+ b = String c (a +:+ b).
Proof. reflexivity. Qed.

Lemma append_nil (b : string) : EmptyString +:+ b = b.
Proof. reflexivity. Qed.

Lemma prefix_spec (n h : string) :
  String.prefix n h = true ↔ ∃ post, h = n +:+ post.
Proof.
  revert h. induction n as [|c n IH]; intros h.
  - split; [intros _; by exists h|]. intros _. by destruct h.
  - destruct h as [|c' h]; simpl.
    + split; [done|]. intros [post Hp]. by rewrite append_cons in Hp.
    + destruct (Ascii.ascii_dec c c') as [->|Hne].
      * rewrite IH. split; intros [post Hp]; exists post;
          rewrite append_cons in *; congruence.
      * split; [done|]. intros [post Hp]. rewrite append_cons in Hp.
        congruence.
Qed.

Lemma str_contains_spec (needle hay : string) :
  str_contains needle hay = true ↔ ∃ pre post, hay = pre +:+ needle +:+ post.
Proof.
  induction hay as [|c hay IH]; cbn [str_contains].
  - rewrite orb_false_r, prefix_spec. split.
    + intros [post Hp]. by exists EmptyString, post.
    + intros (pre & post & Hp). destruct pre as [|c pre].
      * by exists post.
      * by rewrite append_cons in Hp.
  - rewrite orb_true_iff, prefix_spec, IH. split.
    + intros [[post Hp]|(pre & post & Hp)].
      * by exists EmptyString, post.
      * exists (String c pre), post. by rewrite append_cons, Hp.
    + intros (pre & post & Hp). destruct pre as [|c' pre].
      * left. by exists post.
      * right. exists pre, post. rewrite append_cons in Hp. congruence.
Qed.

(** X16: the test of line 231 is containment, not equality: an attachment
    matches exactly when its filename is a string of the form
    [pre + "transcript-{channel.name}.html" + post], so files such as
    [old-transcript-support.html.bak] mark their message for deletion too. *)
Theorem matches_is_containment (name : string) (f : Attachment) :
  matches (transcript_filename name) f = true ↔
  ∃ pre post,
    a_filename f = Some (pre +:+ transcript_filename name +:+ post).
Proof.
  unfold matches. destruct (a_filename f) as [s|].
  - rewrite str_contains_spec. split.
    + intros (pre & post & ->). by exists pre, post.
    + intros (pre & post & [= ->]). by exists pre, post.
  - split; [done|]. by intros (? & ? & ?).
Qed.

(** ** The ticket path *)

Lemma string_app_assoc (a b c : string) : (a +:+ b) +:+ c = a +:+ b +:+ c.
Proof.
  induction a as [|x a IH]; [done|]. by rewrite !append_cons, IH.
Qed.

(** X17: the ticket path is a plain concatenation, so different pairs of
    channel name and ticket id can name the same file: a channel named
    [n---s] with ticket [t] writes where a channel named [n] with ticket
    [s---t] wrote, and the second write replaces the first.  The two writes
    name one path: a file system that lets it be opened lets both through. *)
Theorem ticket_paths_collide (l1 l2 : loc) (ch1 ch2 : Channel)
    (s t d1 d2 : string) (w : World) :
  w_chans w !! l1 = Some ch1 →
  w_chans w !! l2 = Some ch2 →
  ch_name ch2 = ch_name ch1 +:+ "---" +:+ s →
  can_open w (ticket_path (ch_name ch2) (Some t)) →
  let w1 := (write_ticket (Some l1) (Some (s +:+ "---" +:+ t)) d1 w).2 in
  w_fs (write_ticket (Some l2) (Some t) d2 w1).2 =
  <[ticket_path (ch_name ch2) (Some t) := d2]> (w_fs w).
Proof.
  intros Hl1 Hl2 Hname Hopen w1. unfold w1.
  assert (Hp : ticket_path (ch_name ch1) (Some (s +:+ "---" +:+ t)) =
               ticket_path (ch_name ch2) (Some t)).
  { unfold ticket_path, py_format. rewrite Hname.
    by rewrite !string_app_assoc. }
  rewrite (write_ticket_run l1 ch1 _ d1 w Hl1) by (by rewrite Hp).
  rewrite (write_ticket_run l2 ch2 (Some t) d2) by done.
  cbn [snd w_fs]. by rewrite Hp, fs_insert_insert.
Qed.

Lemma ticket_paths_collide_witness :
  let w1 := (write_ticket (Some 1%nat) (Some ("eu" +:+ "---" +:+ "42")) "a"
                          two_channel_world).2 in
  w_fs (write_ticket (Some 2%nat) (Some "42") "b" w1).2 =
  <[ticket_path (ch_name support_sub_channel) (Some "42") := "b"]>
    (w_fs two_channel_world).
Proof.
  apply (ticket_paths_collide 1%nat 2%nat support_channel support_sub_channel
           "eu" "42" "a" "b" two_channel_world).
  - vm_compute. reflexivity.
  - vm_compute. reflexivity.
  - reflexivity.
  - vm_compute. reflexivity.
Defined.

(** X18: a ticket id left at its default [None] is formatted as the text
    [None]: the run writes to the path of the ticket id ["None"], when that
    path can be opened. *)
Theorem ticket_default_is_None_text (l : loc) (ch : Channel) (data : string)
    (w : World) :
  w_chans w !! l = Some ch →
  can_open w (ticket_path (ch_name ch) None) →
  write_ticket (Some l) None data w =
  write_ticket (Some l) (Some "None") data w ∧
  w_fs (write_ticket (Some l) None data w).2 =
  <["/var/www/html/transcripts/transcript-" +:+ ch_name ch +:+ "---None---.html"
    := data]> (w_fs w).
Proof.
  intros Hl Hopen. rewrite !(write_ticket_run l ch) by done. done.
Qed.

Lemma ticket_default_is_None_text_witness :
  write_ticket (Some 1%nat) None "<html/>" world0 =
  write_ticket (Some 1%nat) (Some "None") "<html/>" world0 ∧
  w_fs (write_ticket (Some 1%nat) None "<html/>" world0).2 =
  <["/var/www/html/transcripts/transcript-" +:+ ch_name support_channel
    +:+ "---None---.html" := "<html/>"]> (w_fs world0).
Proof.
  apply (ticket_default_is_None_text 1%nat support_channel "<html/>" world0).
  - reflexivity.
  - vm_compute. reflexivity.
Defined.

(** ** The posted transcript and the cleanup *)

Lemma append_nil_r (s : string) : s +:+ EmptyString = s.
Proof. induction s as [|c s IH]; [done|]. by rewrite append_cons, IH. Qed.

Lemma str_contains_refl (s : string) : str_contains s s = true.
Proof.
  apply str_contains_spec. exists EmptyString, EmptyString.
  by rewrite append_nil, append_nil_r.
Qed.

(** X19: the file name under which the posting [quick_export] uploads the
    transcript (line 52) is one the cleanup test of line 231 matches: the
    round of a message whose only attachment carries that name, in the same
    channel, deletes the message, once. *)
Theorem posted_transcript_is_cleaned (l : loc) (ch : Channel) (m : Message)
    (data url : string) (w : World) :
  w_chans w !! l = Some ch →
  m_attachments m =
    Some [mkAttachment (Some (f_filename (transcript_file (ch_name ch) data)))
                       url] →
  (inspect_message (Some l) m w).1 = Ret tt ∧
  new_events w (inspect_message (Some l) m w).2 = [EvDelete (m_id m)].
Proof.
  intros Hl Hm. rewrite (inspect_message_run l ch m w Hl).
  split; [done|]. apply new_events_app. simpl. rewrite delete_n_trace.
  unfold round_deletes. rewrite Hm.
  cbn [deletes a_filename f_filename transcript_file].
  change ("transcript-" +:+ ch_name ch +:+ ".html")
    with (transcript_filename (ch_name ch)).
  by rewrite str_contains_refl.
Qed.

Lemma posted_transcript_is_cleaned_witness :
  (inspect_message (Some 1%nat) old_transcript world0).1 = Ret tt ∧
  new_events world0 (inspect_message (Some 1%nat) old_transcript world0).2 =
  [EvDelete (m_id old_transcript)].
Proof.
  apply (posted_transcript_is_cleaned 1%nat support_channel old_transcript
           "<html/>" "https://cdn.example.com/a.html" world0).
  - reflexivity.
  - reflexivity.
Defined.

(** ** The [quick_export] of line 170 *)

(** X20: with the lookups resolved, the class-level builder call
    [Transcript.export(channel, None, "Europe/London")] returning and the
    ticket path open to writing, the
    [quick_export] of line 170 runs the same cleanup pass and writes the
    [.html] of the result to the same ticket path as the one of line 205;
    unlike that one it never assigns the guild: the store of channel objects
    is left as it was. *)
Theorem quick_export_l170_writes
    (Bcls : World → option loc → option Z → string → res Transcript)
    (client : Client) (guild : option string) (channel : string)
    (ticket_id : option string) (w : World) (gid cid : Z) (g : Guild)
    (l : loc) (ch : Channel) (t : Transcript) :
  resolves client guild channel w gid cid g l ch →
  Bcls (logged w [EvGetGuild gid; EvGetChannel g cid]) (Some l) None
       "Europe/London" = Ret t →
  can_open w (ticket_path (ch_name ch) ticket_id) →
  let path := ticket_path (ch_name ch) ticket_id in
  ∃ w',
    quick_export_l170 Bcls channel guild ticket_id (Some client) w
    = (Ret tt, w') ∧
    new_events w w' =
      [EvGetGuild gid; EvGetChannel g cid;
       EvTranscriptCls (Some l) None "Europe/London"; EvHistory (ch_id ch)] ++
      pass_deletes (transcript_filename (ch_name ch)) (history_of w ch) ++
      [EvOpen path; EvWrite path (html t)] ∧
    w_fs w' = <[path := html t]> (w_fs w) ∧
    w_chans w' = w_chans w.
Proof.
  intros (Hgi & Hg & Hci & Hc & Hl) HB Hopen path.
  unfold quick_export_l170, get_guild, get_channel, try_except, build_cls.
  unfold bind at 1. unfold bind at 1. unfold lift at 1. rewrite Hgi.
  unfold bind at 1. unfold log at 1, ret at 1. rewrite Hg.
  unfold bind at 1. unfold bind at 1. unfold lift at 1. rewrite Hci.
  unfold bind at 1. unfold log at 1, ret at 1. rewrite Hc.
  unfold bind at 1. unfold bind at 1. unfold bind at 1.
  unfold log at 1, lift at 1. cbn [w_chans w_history w_fs w_trace].
  rewrite app_snoc2. fold (logged w [EvGetGuild gid; EvGetChannel g cid]).
  rewrite HB. unfold ret at 1. unfold bind.
  rewrite (cleanup_run l ch) by done.
  rewrite (write_ticket_run l ch).
  2:{ by rewrite after_rounds_chans. }
  2:{ unfold can_open. by rewrite after_rounds_fs. }
  eexists. split; [reflexivity|]. split_and!.
  - apply new_events_app. simpl. rewrite after_rounds_trace. simpl.
    by rewrite <- !app_assoc.
  - simpl. by rewrite after_rounds_fs.
  - simpl. by rewrite after_rounds_chans.
Qed.

Lemma quick_export_l170_writes_witness :
  let path := ticket_path (ch_name support_channel) (Some "42") in
  ∃ w',
    quick_export_l170 (builder_cls_returns "<html/>") "222" (Some "111")
                      (Some "42") (Some bot_client) world0
    = (Ret tt, w') ∧
    new_events world0 w' =
      [EvGetGuild 111; EvGetChannel home_guild 222;
       EvTranscriptCls (Some 1%nat) None "Europe/London";
       EvHistory (ch_id support_channel)] ++
      pass_deletes (transcript_filename (ch_name support_channel))
                   (history_of world0 support_channel) ++
      [EvOpen path; EvWrite path (html (mkTranscript "<html/>"))] ∧
    w_fs w' = <[path := html (mkTranscript "<html/>")]> (w_fs world0) ∧
    w_chans w' = w_chans world0.
Proof.
  apply (quick_export_l170_writes (builder_cls_returns "<html/>") bot_client
           (Some "111") "222" (Some "42") world0 111 222 home_guild 1%nat
           support_channel (mkTranscript "<html/>")).
  - repeat split; vm_compute; reflexivity.
  - reflexivity.
  - vm_compute. reflexivity.
Defined.
